(** * Groupe Scout Ouragan — the single-page frontend ([frontend/src/App.js])

    A shallow embedding of the React component tree of [App.js]: every
    component is a module holding its state record (one field per
    [useState]), its event handlers and the part of its render function the
    properties below talk about.

    Handlers are written in a small monad [Act St] that threads
    - the component state [St],
    - the browser environment [Env]: [localStorage] and the chronological
      log of observable effects (HTTP requests sent through axios,
      [console.error], [alert], [window.confirm]),
    and that can complete abruptly (a rejected request, a thrown error),
    with [try_catch] and [finally] as in the source.

    The backend is outside the program: the reply to each awaited request
    is an argument of the handler that awaits it.  A handler is run to
    completion on the state its closure captured; no handler of [App.js]
    reads a state variable after having set it, so state passing agrees with
    React's deferred updates on the final state.  A callback prop that is
    itself asynchronous ([onUpdate]) is run where it is called: its request
    is sent at that point, as in the source, and its reply, which the
    source handles when it arrives, is handled at that point too. *)

From stdpp Require Import base option strings list gmap.
From Stdlib Require DecimalString.

Local Open Scope string_scope.

(** ** Entities (backend-owned, the frontend holds transient copies) *)

Module Member.
Record t := mk {
  id : string;
  nom : string;
  prenom : string;
  (** an integer, or [None] when the record carries [null] or no age *)
  age : option Z;
  branch : string
}.
End Member.

Module Activity.
Record t := mk {
  id : string;
  titre : string;
  description : string;
  date_activite : string;
  branch : option string;
  organ : option string;
  lieu : option string
}.
End Activity.

Module Branch.
Record t := mk {
  type : string;
  name : string;
  age_range : string;
  description : string
}.
End Branch.

Module Organ.
Record t := mk {
  type : string;
  name : string;
  description : string
}.
End Organ.

Module Project.
Record t := mk {
  titre : string;
  contenu : string
}.
End Project.

(** [GET /branches] answers [{ branches, organs }]. *)
Record BranchesData := {
  data_branches : list Branch.t;
  data_organs : list Organ.t
}.

(** [POST /auth/login] answers [{ access_token }]. *)
Record LoginData := { access_token : string }.

(** [GET /admin/stats] answers [{ members_by_branch }]. *)
Record Stats := { members_by_branch : gmap string nat }.

(** ** What the JavaScript runtime and the deployment provide *)

Class Runtime := {
  (** [process.env.REACT_APP_BACKEND_URL] *)
  BACKEND_URL : string;
  (** [parseInt(s)]; [None] is [NaN] *)
  parseInt : string -> option Z;
  (** [new Date(s).toISOString()]; [None] when the date is invalid, where
      JavaScript throws a [RangeError] *)
  Date_toISOString : string -> option string;
  (** [new Date(s).toLocaleDateString('fr-FR')] *)
  Date_toLocaleDateString : string -> string;
  (** [s.toUpperCase()] *)
  toUpperCase : string -> string;
  (** [s.charAt(i)]: the UTF-16 unit at index [i], empty past the end *)
  String_charAt : nat -> string -> string;
  (** [s.slice(i)]: the string from UTF-16 unit [i] on *)
  String_slice : nat -> string -> string;
  (** [n.toString()] for an integer outside the safe integers, where a
      JavaScript number prints rounded digits and, from 10^21 on, in
      exponent notation *)
  Number_toString_unsafe : Z -> string
}.

Definition API `{Runtime} : string := BACKEND_URL ++ "/api".

(** ** Requests, replies and observable effects *)

Inductive Method := GET | POST | PUT | DELETE.

Record Credentials := { username : string; password : string }.

Record MemberData := {
  md_nom : string;
  md_prenom : string;
  md_age : option Z;
  md_branch : string
}.

Record ActivityData := {
  ad_titre : string;
  ad_description : string;
  ad_date_activite : string;
  ad_branch : option string;
  ad_organ : option string;
  ad_lieu : string
}.

Record ProjectForm := { pf_titre : string; pf_contenu : string }.

Inductive Payload :=
| NoBody
| CredentialsBody (c : Credentials)
| MemberBody (m : MemberData)
| ActivityBody (a : ActivityData)
| ProjectBody (p : ProjectForm).

(** Why a request was rejected: transport failure or a non-2xx status. *)
Inductive Failure := NetworkError | BadStatus (code : nat).

Inductive Response (A : Type) :=
| Fulfilled (data : A)
| Rejected (why : Failure).
Arguments Fulfilled {A} data.
Arguments Rejected {A} why.

Inductive Exception :=
| AxiosError (why : Failure)
| RangeError
| TypeError.

Inductive Effect :=
| Http (method : Method) (url : string) (authorization : option string)
       (body : Payload)
| ConsoleError (message : string) (error : Exception)
| Alert (message : string)
| Confirm (message : string).

Record Env := {
  localStorage : gmap string string;
  effects : list Effect
}.

(** ** The handler monad *)

Inductive Completion (A : Type) :=
| Normal (value : A)
| Thrown (error : Exception).
Arguments Normal {A} value.
Arguments Thrown {A} error.

Definition Act (St A : Type) : Type := Env -> St -> Completion A * Env * St.

Definition act_ret {St A} (a : A) : Act St A :=
  fun env st => (Normal a, env, st).

Definition act_bind {St A B} (m : Act St A) (k : A -> Act St B) : Act St B :=
  fun env st =>
    match m env st with
    | (Normal a, env', st') => k a env' st'
    | (Thrown e, env', st') => (Thrown e, env', st')
    end.

Declare Scope act_scope.
Delimit Scope act_scope with act.
Notation "x <- m ;; k" := (act_bind m (fun x => k))
  (at level 100, m at next level, right associativity) : act_scope.
Notation "m ;; k" := (act_bind m (fun _ => k))
  (at level 100, right associativity) : act_scope.
Local Open Scope act_scope.

Definition throw {St A} (e : Exception) : Act St A :=
  fun env st => (Thrown e, env, st).

(** [try { body } catch (error) { handler }] *)
Definition try_catch {St A} (body : Act St A) (handler : Exception -> Act St A)
  : Act St A :=
  fun env st =>
    match body env st with
    | (Normal a, env', st') => (Normal a, env', st')
    | (Thrown e, env', st') => handler e env' st'
    end.

(** [try { body } finally { cleanup }] *)
Definition finally {St A} (body : Act St A) (cleanup : Act St unit) : Act St A :=
  fun env st =>
    let '(r, env', st') := body env st in
    match cleanup env' st' with
    | (Normal _, env'', st'') => (r, env'', st'')
    | (Thrown e, env'', st'') => (Thrown e, env'', st'')
    end.

(** The state captured by the handler's closure. *)
Definition get {St} : Act St St :=
  fun env st => (Normal st, env, st).

(** A [useState] setter. *)
Definition modify {St} (f : St -> St) : Act St unit :=
  fun env st => (Normal tt, env, f st).

Definition emit {St} (e : Effect) : Act St unit :=
  fun env st =>
    (Normal tt,
     {| localStorage := localStorage env; effects := effects env ++ [e] |},
     st).

Definition localStorage_getItem {St} (key : string) : Act St (option string) :=
  fun env st => (Normal (localStorage env !! key), env, st).

Definition localStorage_setItem {St} (key value : string) : Act St unit :=
  fun env st =>
    (Normal tt,
     {| localStorage := <[key := value]> (localStorage env);
        effects := effects env |},
     st).

Definition localStorage_removeItem {St} (key : string) : Act St unit :=
  fun env st =>
    (Normal tt,
     {| localStorage := delete key (localStorage env);
        effects := effects env |},
     st).

Definition console_error {St} (message : string) (error : Exception)
  : Act St unit :=
  emit (ConsoleError message error).

Definition alert {St} (message : string) : Act St unit :=
  emit (Alert message).

(** [window.confirm(message)]: the prompt is shown, [answer] is what the
    user chose. *)
Definition window_confirm {St} (message : string) (answer : bool)
  : Act St bool :=
  emit (Confirm message) ;; act_ret answer.

(** [await axios.<method>(url, body, { headers })]: the request is sent,
    [reply] is how the backend settles it. *)
Definition axios {St A} (method : Method) (url : string) (body : Payload)
    (authorization : option string) (reply : Response A) : Act St A :=
  emit (Http method url authorization body) ;;
  match reply with
  | Fulfilled data => act_ret data
  | Rejected why => throw (AxiosError why)
  end.

Definition axios_get {St A} (url : string) (authorization : option string)
    (reply : Response A) : Act St A :=
  axios GET url NoBody authorization reply.

Definition axios_post {St A} (url : string) (body : Payload)
    (authorization : option string) (reply : Response A) : Act St A :=
  axios POST url body authorization reply.

Definition axios_put {St A} (url : string) (body : Payload)
    (authorization : option string) (reply : Response A) : Act St A :=
  axios PUT url body authorization reply.

Definition axios_delete {St A} (url : string) (authorization : option string)
    (reply : Response A) : Act St A :=
  axios DELETE url NoBody authorization reply.

(** A template literal prints [null] for an absent item. *)
Definition template (item : option string) : string :=
  match item with
  | Some s => s
  | None => "null"
  end.

(** [{ Authorization: `Bearer ${localStorage.getItem('adminToken')}` }] *)
Definition bearer {St} : Act St (option string) :=
  item <- localStorage_getItem "adminToken" ;;
  act_ret (Some ("Bearer " ++ template item)).

(** A child component's handler runs on its own state and calls the
    callbacks it got as props on the state of the component that owns
    them. *)
Definition own {S P A} (m : Act S A) : Act (S * P) A :=
  fun env '(s, p) =>
    let '(r, env', s') := m env s in (r, env', (s', p)).

Definition prop {S P A} (m : Act P A) : Act (S * P) A :=
  fun env '(s, p) =>
    let '(r, env', p') := m env p in (r, env', (s, p')).

(** ** JavaScript helpers *)

(** [!!item] for a string or [null]: the empty string is falsy. *)
Definition truthy (item : option string) : bool :=
  match item with
  | Some s => negb (String.eqb s "")
  | None => false
  end.

(** [count || 0] for a number or [undefined]. *)
Definition or_zero (count : option nat) : nat :=
  match count with
  | Some (S n) => S n
  | Some O => 0
  | None => 0
  end.

(** [value || null] for a string. *)
Definition or_null (value : string) : option string :=
  if String.eqb value "" then None else Some value.

(** [array.slice(start, end)] for [0 <= start <= end]. *)
Definition slice {A} (start end_ : nat) (array : list A) : list A :=
  take (end_ - start) (drop start array).

(** [string.split(separator)] for a one-character separator. *)
Fixpoint split (separator : Ascii.ascii) (s : string) : list string :=
  match s with
  | EmptyString => [EmptyString]
  | String c rest =>
      if Ascii.eqb c separator then EmptyString :: split separator rest
      else match split separator rest with
           | first :: others => String c first :: others
           | [] => [String c EmptyString]
           end
  end.

(** [array.join(separator)] *)
Fixpoint join (separator : string) (array : list string) : string :=
  match array with
  | [] => ""
  | [s] => s
  | s :: rest => s ++ separator ++ join separator rest
  end.

Definition newline : Ascii.ascii := Ascii.Ascii false true false true false false false false.

(** Is [e] the request [method url]? *)
Definition is_request (method : Method) (url : string) (e : Effect) : bool :=
  match e with
  | Http m u _ _ =>
      match method, m with
      | GET, GET | POST, POST | PUT, PUT | DELETE, DELETE => String.eqb u url
      | _, _ => false
      end
  | _ => false
  end.

Definition is_http (e : Effect) : bool :=
  match e with
  | Http _ _ _ _ => true
  | _ => false
  end.

(** What the user gets to see of a failure: an [alert]. *)
Definition is_alert (e : Effect) : bool :=
  match e with
  | Alert _ => true
  | _ => false
  end.

(** How many times [method url] was sent in a log. *)
Definition sent (method : Method) (url : string) (log : list Effect) : nat :=
  length (List.filter (is_request method url) log).

(** ** [AuthProvider] (lines 19-40) *)

Module AuthProvider.

Record State := {
  token : option string;
  isAuthenticated : bool
}.

(** [useState(localStorage.getItem('adminToken'))] and [useState(!!token)] *)
Definition init (storage : gmap string string) : State :=
  let token := storage !! "adminToken" in
  {| token := token; isAuthenticated := truthy token |}.

Definition setToken (v : option string) : Act State unit :=
  modify (fun s => {| token := v; isAuthenticated := isAuthenticated s |}).

Definition setIsAuthenticated (v : bool) : Act State unit :=
  modify (fun s => {| token := token s; isAuthenticated := v |}).

Definition login (newToken : string) : Act State unit :=
  localStorage_setItem "adminToken" newToken ;;
  setToken (Some newToken) ;;
  setIsAuthenticated true.

Definition logout : Act State unit :=
  localStorage_removeItem "adminToken" ;;
  setToken None ;;
  setIsAuthenticated false.

End AuthProvider.

(** A list that is shown either as its rows or, when empty, as a
    placeholder sentence ([list.length > 0 ? rows : <p>...</p>]). *)
Inductive Panel (A : Type) :=
| Rows (rows : list A)
| Placeholder (text : string).
Arguments Rows {A} rows.
Arguments Placeholder {A} text.

Definition panel {A} (rows : list A) (placeholder : string) : Panel A :=
  if bool_decide (0 < length rows) then Rows rows else Placeholder placeholder.

(** ** [BranchCard] (lines 64-167) *)

Module BranchCard.

Record State := {
  showMembers : bool;
  showActivities : bool;
  members : list Member.t;
  branchActivities : list Activity.t
}.

Definition init : State :=
  {| showMembers := false; showActivities := false;
     members := []; branchActivities := [] |}.

Definition setShowMembers (v : bool) : Act State unit :=
  modify (fun s =>
    {| showMembers := v; showActivities := showActivities s;
       members := members s; branchActivities := branchActivities s |}).

Definition setShowActivities (v : bool) : Act State unit :=
  modify (fun s =>
    {| showMembers := showMembers s; showActivities := v;
       members := members s; branchActivities := branchActivities s |}).

Definition setMembers (v : list Member.t) : Act State unit :=
  modify (fun s =>
    {| showMembers := showMembers s; showActivities := showActivities s;
       members := v; branchActivities := branchActivities s |}).

Definition setBranchActivities (v : list Activity.t) : Act State unit :=
  modify (fun s =>
    {| showMembers := showMembers s; showActivities := showActivities s;
       members := members s; branchActivities := v |}).

Section handlers.
Context `{Runtime} (branch : Branch.t).

Definition members_url : string := API ++ "/members/" ++ Branch.type branch.
Definition activities_url : string := API ++ "/activities/" ++ Branch.type branch.

Definition loadMembers (reply : Response (list Member.t)) : Act State unit :=
  try_catch
    (response <- axios_get members_url None reply ;;
     setMembers response ;;
     setShowMembers true)
    (fun error =>
     console_error "Erreur lors du chargement des membres:" error).

Definition loadActivities (reply : Response (list Activity.t)) : Act State unit :=
  try_catch
    (response <- axios_get activities_url None reply ;;
     setBranchActivities response ;;
     setShowActivities true)
    (fun error =>
     console_error "Erreur lors du chargement des activités:" error).

(** Successive clicks on the members button ([onClick={loadMembers}]), each
    handled before the next; [replies] settles the request of each click. *)
Fixpoint click_members (replies : list (Response (list Member.t)))
  : Act State unit :=
  match replies with
  | [] => act_ret tt
  | reply :: later => loadMembers reply ;; click_members later
  end.

(** Successive clicks on the activities button
    ([onClick={loadActivities}]). *)
Fixpoint click_activities (replies : list (Response (list Activity.t)))
  : Act State unit :=
  match replies with
  | [] => act_ret tt
  | reply :: later => loadActivities reply ;; click_activities later
  end.

End handlers.

(** What the card shows: the two button labels and, under each button,
    the list when it is visible. *)
Record View := {
  members_button : string;
  members_panel : option (Panel Member.t);
  activities_button : string;
  activities_panel : option (Panel Activity.t)
}.

Definition render (s : State) : View :=
  {| members_button :=
       if showMembers s then "Masquer les membres" else "Voir les membres";
     members_panel :=
       if showMembers s
       then Some (panel (members s) "Aucun membre dans cette branche")
       else None;
     activities_button :=
       if showActivities s then "Masquer les activités"
       else "Voir les activités";
     activities_panel :=
       if showActivities s
       then Some (panel (branchActivities s) "Aucune activité prévue")
       else None |}.

(** Clicks on the two buttons of one card, in any order. *)
Inductive Click :=
| Members (reply : Response (list Member.t))
| Activities (reply : Response (list Activity.t)).

Section clicks.
Context `{Runtime} (branch : Branch.t).

Definition click (c : Click) : Act State unit :=
  match c with
  | Members reply => loadMembers branch reply
  | Activities reply => loadActivities branch reply
  end.

Fixpoint clicks (cs : list Click) : Act State unit :=
  match cs with
  | [] => act_ret tt
  | c :: later => click c ;; clicks later
  end.

End clicks.

(** The member list of the last fulfilled members click, [before] when
    there is none. *)
Fixpoint last_members (cs : list Click) (before : list Member.t)
  : list Member.t :=
  match cs with
  | [] => before
  | Members (Fulfilled fetched) :: later => last_members later fetched
  | _ :: later => last_members later before
  end.

Fixpoint last_activities (cs : list Click) (before : list Activity.t)
  : list Activity.t :=
  match cs with
  | [] => before
  | Activities (Fulfilled fetched) :: later => last_activities later fetched
  | _ :: later => last_activities later before
  end.

Definition fulfilled_members (c : Click) : bool :=
  match c with
  | Members (Fulfilled _) => true
  | _ => false
  end.

Definition fulfilled_activities (c : Click) : bool :=
  match c with
  | Activities (Fulfilled _) => true
  | _ => false
  end.

(** Requests in flight.  The buttons stay enabled while a request is
    awaited, so a second click can send its request before the reply to
    the first has arrived, and the replies can arrive in any order.  Each
    loader is cut at its [await]: what runs at the click, and what runs
    when the reply arrives. *)

Section in_flight.
Context `{Runtime} (branch : Branch.t).

Definition loadMembers_send : Act State unit :=
  emit (Http GET (members_url branch) None NoBody).

Definition loadMembers_settle (reply : Response (list Member.t))
  : Act State unit :=
  try_catch
    (response <- match reply with
                 | Fulfilled data => act_ret data
                 | Rejected why => throw (AxiosError why)
                 end ;;
     setMembers response ;;
     setShowMembers true)
    (fun error =>
     console_error "Erreur lors du chargement des membres:" error).

Definition loadActivities_send : Act State unit :=
  emit (Http GET (activities_url branch) None NoBody).

Definition loadActivities_settle (reply : Response (list Activity.t))
  : Act State unit :=
  try_catch
    (response <- match reply with
                 | Fulfilled data => act_ret data
                 | Rejected why => throw (AxiosError why)
                 end ;;
     setBranchActivities response ;;
     setShowActivities true)
    (fun error =>
     console_error "Erreur lors du chargement des activités:" error).

End in_flight.

(** What happens to a card: a click on one of its buttons, or the arrival
    of the reply to one of the requests in flight. *)
Inductive Step :=
| ClickMembers
| MembersReply (reply : Response (list Member.t))
| ClickActivities
| ActivitiesReply (reply : Response (list Activity.t)).

(** The card and the number of its requests still awaiting a reply. *)
Record InFlight := {
  card : State;
  awaiting_members : nat;
  awaiting_activities : nat
}.

Section steps.
Context `{Runtime} (branch : Branch.t).

(** One step; [None] for a reply when no request of its kind is in
    flight. *)
Definition step (st : Step) (env : Env) (f : InFlight)
  : option (Env * InFlight) :=
  match st with
  | ClickMembers =>
      let '(_, env', s') := loadMembers_send branch env (card f) in
      Some (env', {| card := s';
                     awaiting_members := S (awaiting_members f);
                     awaiting_activities := awaiting_activities f |})
  | MembersReply reply =>
      match awaiting_members f with
      | O => None
      | S n =>
          let '(_, env', s') := loadMembers_settle reply env (card f) in
          Some (env', {| card := s';
                         awaiting_members := n;
                         awaiting_activities := awaiting_activities f |})
      end
  | ClickActivities =>
      let '(_, env', s') := loadActivities_send branch env (card f) in
      Some (env', {| card := s';
                     awaiting_members := awaiting_members f;
                     awaiting_activities := S (awaiting_activities f) |})
  | ActivitiesReply reply =>
      match awaiting_activities f with
      | O => None
      | S n =>
          let '(_, env', s') :=
            loadActivities_settle reply env (card f) in
          Some (env', {| card := s';
                         awaiting_members := awaiting_members f;
                         awaiting_activities := n |})
      end
  end.

Fixpoint steps (sts : list Step) (env : Env) (f : InFlight)
  : option (Env * InFlight) :=
  match sts with
  | [] => Some (env, f)
  | st :: later =>
      match step st env f with
      | Some (env', f') => steps later env' f'
      | None => None
      end
  end.

End steps.

(** The member list of the last fulfilled reply to arrive, [before] when
    there is none. *)
Fixpoint last_arrived_members (sts : list Step) (before : list Member.t)
  : list Member.t :=
  match sts with
  | [] => before
  | MembersReply (Fulfilled fetched) :: later =>
      last_arrived_members later fetched
  | _ :: later => last_arrived_members later before
  end.

Fixpoint last_arrived_activities (sts : list Step)
    (before : list Activity.t) : list Activity.t :=
  match sts with
  | [] => before
  | ActivitiesReply (Fulfilled fetched) :: later =>
      last_arrived_activities later fetched
  | _ :: later => last_arrived_activities later before
  end.

Definition members_arrived (st : Step) : bool :=
  match st with
  | MembersReply (Fulfilled _) => true
  | _ => false
  end.

Definition activities_arrived (st : Step) : bool :=
  match st with
  | ActivitiesReply (Fulfilled _) => true
  | _ => false
  end.

Definition is_members_click (st : Step) : bool :=
  match st with
  | ClickMembers => true
  | _ => false
  end.

Definition is_activities_click (st : Step) : bool :=
  match st with
  | ClickActivities => true
  | _ => false
  end.

End BranchCard.

(** ** [PublicHome] (lines 169-306) *)

Module PublicHome.

Record State := {
  branches : list Branch.t;
  organs : list Organ.t;
  memberCounts : gmap string nat;
  project : option Project.t;
  recentActivities : list Activity.t
}.

Definition init : State :=
  {| branches := []; organs := []; memberCounts := ∅; project := None;
     recentActivities := [] |}.

Definition setBranches (v : list Branch.t) : Act State unit :=
  modify (fun s =>
    {| branches := v; organs := organs s; memberCounts := memberCounts s;
       project := project s; recentActivities := recentActivities s |}).

Definition setOrgans (v : list Organ.t) : Act State unit :=
  modify (fun s =>
    {| branches := branches s; organs := v; memberCounts := memberCounts s;
       project := project s; recentActivities := recentActivities s |}).

Definition setMemberCounts (v : gmap string nat) : Act State unit :=
  modify (fun s =>
    {| branches := branches s; organs := organs s; memberCounts := v;
       project := project s; recentActivities := recentActivities s |}).

Definition setProject (v : option Project.t) : Act State unit :=
  modify (fun s =>
    {| branches := branches s; organs := organs s;
       memberCounts := memberCounts s;
       project := v; recentActivities := recentActivities s |}).

Definition setRecentActivities (v : list Activity.t) : Act State unit :=
  modify (fun s =>
    {| branches := branches s; organs := organs s;
       memberCounts := memberCounts s;
       project := project s; recentActivities := v |}).

(** [members.filter(m => m.branch === key).length] *)
Definition count_branch (key : string) (members : list Member.t) : nat :=
  length (List.filter (fun m => String.eqb (Member.branch m) key) members).

Section handlers.
Context `{Runtime}.

Definition loadData
    (branchesReply : Response BranchesData)
    (membersReply : Response (list Member.t))
    (projectReply : Response Project.t)
    (activitiesReply : Response (list Activity.t)) : Act State unit :=
  try_catch
    (branchesResponse <- axios_get (API ++ "/branches") None branchesReply ;;
     setBranches (data_branches branchesResponse) ;;
     setOrgans (data_organs branchesResponse) ;;
     membersResponse <- axios_get (API ++ "/members") None membersReply ;;
     let members := membersResponse in
     let counts : gmap string nat :=
       <["meute" := count_branch "meute" members]>
       (<["troupe" := count_branch "troupe" members]>
       (<["compagnie" := count_branch "compagnie" members]>
       (<["clan" := count_branch "clan" members]> ∅))) in
     setMemberCounts counts ;;
     projectResponse <- axios_get (API ++ "/project") None projectReply ;;
     setProject (Some projectResponse) ;;
     activitiesResponse <-
       axios_get (API ++ "/activities") None activitiesReply ;;
     setRecentActivities (slice 0 5 activitiesResponse))
    (fun error =>
     console_error "Erreur lors du chargement des données:" error).

(** The props of one [<BranchCard>]. *)
Record BranchCardProps := {
  key : string;
  branch : Branch.t;
  memberCount : nat
}.

(** One entry of the recent-activities section. *)
Record ActivityItem := {
  item_key : string;
  item_titre : string;
  item_description : string;
  item_date : string;
  item_badge : option string
}.

(** [s.charAt(0).toUpperCase() + s.slice(1)] *)
Definition capitalize (s : string) : string :=
  toUpperCase (String_charAt 0 s) ++ String_slice 1 s.

Definition activity_item (activity : Activity.t) : ActivityItem :=
  {| item_key := Activity.id activity;
     item_titre := Activity.titre activity;
     item_description := Activity.description activity;
     item_date := Date_toLocaleDateString (Activity.date_activite activity);
     item_badge :=
       if truthy (Activity.branch activity)
       then capitalize <$> Activity.branch activity
       else None |}.

(** One [<p key={index}>] of the project text. *)
Record Paragraph := { index : nat; text : string }.

Record ProjectSection := {
  heading : string;
  paragraphs : list Paragraph
}.

Record View := {
  branch_cards : list BranchCardProps;
  organ_cards : list Organ.t;
  recent_activities : Panel ActivityItem;
  project_section : option ProjectSection
}.

(** [memberCounts[branch.type]] is a lookup in the object built by
    [loadData] (or in [{}] before it); keys inherited from
    [Object.prototype] are not modelled. *)
Definition render (s : State) : View :=
  {| branch_cards :=
       map (fun branch =>
              {| key := Branch.type branch;
                 branch := branch;
                 memberCount := or_zero (memberCounts s !! Branch.type branch) |})
           (branches s);
     organ_cards := organs s;
     recent_activities :=
       panel (map activity_item (recentActivities s)) "Aucune activité récente";
     project_section :=
       match project s with
       | Some project =>
           Some {| heading := Project.titre project;
                   paragraphs :=
                     imap (fun index paragraph =>
                             {| index := index; text := paragraph |})
                          (split newline (Project.contenu project)) |}
       | None => None
       end |}.

End handlers.

End PublicHome.

(** ** [AdminLogin] (lines 308-377) *)

Module AdminLogin.

Record State := {
  credentials : Credentials;
  loading : bool;
  error : string
}.

Definition init : State :=
  {| credentials := {| username := ""; password := "" |};
     loading := false; error := "" |}.

Definition setCredentials (v : Credentials) : Act State unit :=
  modify (fun s =>
    {| credentials := v; loading := loading s; error := error s |}).

Definition setLoading (v : bool) : Act State unit :=
  modify (fun s =>
    {| credentials := credentials s; loading := v; error := error s |}).

Definition setError (v : string) : Act State unit :=
  modify (fun s =>
    {| credentials := credentials s; loading := loading s; error := v |}).

Definition error_message : string :=
  "Nom d'utilisateur ou mot de passe incorrect".

Section handlers.
Context `{Runtime} {P : Type} (onLogin : string -> Act P unit).

Definition handleLogin (reply : Response LoginData) : Act (State * P) unit :=
  s <- own get ;;
  own (setLoading true) ;;
  own (setError "") ;;
  finally
    (try_catch
       (response <-
          axios_post (API ++ "/auth/login") (CredentialsBody (credentials s))
                     None reply ;;
        prop (onLogin (access_token response)))
       (fun error => own (setError error_message)))
    (own (setLoading false)).

End handlers.

(** The error banner ([{error && <div>{error}</div>}]) and the submit
    button ([disabled={loading}]). *)
Record View := {
  banner : option string;
  submit_disabled : bool;
  submit_label : string
}.

Definition render (s : State) : View :=
  {| banner := if truthy (Some (error s)) then Some (error s) else None;
     submit_disabled := loading s;
     submit_label := if loading s then "Connexion..." else "Se connecter" |}.

(** The three states of the login view. *)
Inductive Phase := idle | submitting | failed.

Definition phase (s : State) : Phase :=
  if loading s then submitting
  else match banner (render s) with
       | Some _ => failed
       | None => idle
       end.

End AdminLogin.

(** The letter [T], which separates the date from the time in an ISO
    timestamp. *)
Definition letter_T : Ascii.ascii :=
  Ascii.Ascii false false true false true false true false.

(** The integers a JavaScript number holds exactly
    ([Number.isSafeInteger]). *)
Definition MAX_SAFE_INTEGER : Z := 9007199254740991.

Definition isSafeInteger (n : Z) : bool :=
  ((- MAX_SAFE_INTEGER <=? n) && (n <=? MAX_SAFE_INTEGER))%Z.

(** The decimal numeral of an integer: its digits, after a minus sign
    when it is negative. *)
Definition decimal (n : Z) : string :=
  DecimalString.NilZero.string_of_int (Z.to_int n).

(** [n.toString()]: the decimal numeral of a safe integer; what the
    runtime prints for the others. *)
Definition Number_toString `{Runtime} (n : Z) : string :=
  if isSafeInteger n then decimal n else Number_toString_unsafe n.

(** [value.toString()] for a number that may be [null] or [undefined],
    where JavaScript throws a [TypeError]. *)
Definition toString `{Runtime} {St} (value : option Z) : Act St string :=
  match value with
  | Some n => act_ret (Number_toString n)
  | None => throw TypeError
  end.

(** ** [MembersManagement] (lines 517-672) *)

Module MembersManagement.

Record FormData := {
  nom : string;
  prenom : string;
  age : string;
  branch : string
}.

Record State := {
  showForm : bool;
  editingMember : option Member.t;
  formData : FormData
}.

Definition blank : FormData :=
  {| nom := ""; prenom := ""; age := ""; branch := "meute" |}.

Definition init : State :=
  {| showForm := false; editingMember := None; formData := blank |}.

Definition setShowForm (v : bool) : Act State unit :=
  modify (fun s =>
    {| showForm := v; editingMember := editingMember s;
       formData := formData s |}).

Definition setEditingMember (v : option Member.t) : Act State unit :=
  modify (fun s =>
    {| showForm := showForm s; editingMember := v; formData := formData s |}).

Definition setFormData (v : FormData) : Act State unit :=
  modify (fun s =>
    {| showForm := showForm s; editingMember := editingMember s;
       formData := v |}).

Section handlers.
Context `{Runtime} {P : Type} (onUpdate : Act P unit).

Definition handleSubmit (reply : Response unit) : Act (State * P) unit :=
  s <- own get ;;
  try_catch
    (let memberData :=
       {| md_nom := nom (formData s); md_prenom := prenom (formData s);
          md_age := parseInt (age (formData s));
          md_branch := branch (formData s) |} in
     authorization <- bearer ;;
     match editingMember s with
     | Some member =>
         axios_put (API ++ "/admin/members/" ++ Member.id member)
                   (MemberBody memberData) authorization reply
     | None =>
         axios_post (API ++ "/admin/members")
                    (MemberBody memberData) authorization reply
     end ;;
     own (setFormData blank) ;;
     own (setShowForm false) ;;
     own (setEditingMember None) ;;
     prop onUpdate)
    (fun error => console_error "Erreur:" error).

Definition handleDelete (memberId : string) (answer : bool)
    (reply : Response unit) : Act (State * P) unit :=
  confirmed <-
    window_confirm "Êtes-vous sûr de vouloir supprimer ce membre ?" answer ;;
  if confirmed then
    try_catch
      (authorization <- bearer ;;
       axios_delete (API ++ "/admin/members/" ++ memberId)
                    authorization reply ;;
       prop onUpdate)
      (fun error => console_error "Erreur:" error)
  else act_ret tt.

End handlers.

(** The rest of the form: prefill, open, cancel, typing. *)

Section form.
Context `{Runtime}.

Definition handleEdit (member : Member.t) : Act State unit :=
  setEditingMember (Some member) ;;
  printed <- toString (Member.age member) ;;
  setFormData
    {| nom := Member.nom member;
       prenom := Member.prenom member;
       age := printed;
       branch := Member.branch member |} ;;
  setShowForm true.

End form.

(** [Ajouter un membre]: [onClick={() => setShowForm(true)}] *)
Definition add_click : Act State unit :=
  setShowForm true.

(** [Annuler] *)
Definition cancel_click : Act State unit :=
  setShowForm false ;;
  setEditingMember None ;;
  setFormData blank.

Inductive Field := field_nom | field_prenom | field_age | field_branch.

(** [onChange={(e) => setFormData({...formData, <field>: e.target.value})}] *)
Definition change (field : Field) (value : string) : Act State unit :=
  s <- get ;;
  let form := formData s in
  setFormData
    match field with
    | field_nom =>
        {| nom := value; prenom := prenom form; age := age form;
           branch := branch form |}
    | field_prenom =>
        {| nom := nom form; prenom := value; age := age form;
           branch := branch form |}
    | field_age =>
        {| nom := nom form; prenom := prenom form; age := value;
           branch := branch form |}
    | field_branch =>
        {| nom := nom form; prenom := prenom form; age := age form;
           branch := value |}
    end.

(** [{editingMember ? 'Modifier' : 'Ajouter'}] *)
Definition submit_label (s : State) : string :=
  match editingMember s with
  | Some _ => "Modifier"
  | None => "Ajouter"
  end.

Inductive Event :=
| Add
| Edit (member : Member.t)
| Change (field : Field) (value : string)
| Cancel
| Submit (reply : Response unit)
| Delete (memberId : string) (answer : bool) (reply : Response unit).

Section events.
Context `{Runtime} {P : Type} (onUpdate : Act P unit).

(** One user event; the inputs, [Annuler] and the submit button are inside
    [{showForm && <form>}] and exist only while the form is shown. *)
Definition dispatch (e : Event) (env : Env) (st : State * P)
  : option (Completion unit * Env * (State * P)) :=
  match e with
  | Add => Some (own add_click env st)
  | Edit member => Some (own (handleEdit member) env st)
  | Delete memberId answer reply =>
      Some (handleDelete onUpdate memberId answer reply env st)
  | Change field value =>
      if showForm st.1 then Some (own (change field value) env st) else None
  | Cancel =>
      if showForm st.1 then Some (own cancel_click env st) else None
  | Submit reply =>
      if showForm st.1 then Some (handleSubmit onUpdate reply env st)
      else None
  end.

Fixpoint run (events : list Event) (env : Env) (st : State * P)
  : option (Env * (State * P)) :=
  match events with
  | [] => Some (env, st)
  | e :: later =>
      match dispatch e env st with
      | Some (_, env', st') => run later env' st'
      | None => None
      end
  end.

End events.

(** A hidden form is pristine: no record under edit, blank fields. *)
Definition pristine_when_hidden (s : State) : Prop :=
  showForm s = false -> editingMember s = None /\ formData s = blank.

End MembersManagement.

(** ** [ActivitiesManagement] (lines 674-842) *)

Module ActivitiesManagement.

Record FormData := {
  titre : string;
  description : string;
  date_activite : string;
  branch : string;
  organ : string;
  lieu : string
}.

Record State := {
  showForm : bool;
  editingActivity : option Activity.t;
  formData : FormData
}.

Definition blank : FormData :=
  {| titre := ""; description := ""; date_activite := ""; branch := "";
     organ := ""; lieu := "" |}.

Definition init : State :=
  {| showForm := false; editingActivity := None; formData := blank |}.

Definition setShowForm (v : bool) : Act State unit :=
  modify (fun s =>
    {| showForm := v; editingActivity := editingActivity s;
       formData := formData s |}).

Definition setEditingActivity (v : option Activity.t) : Act State unit :=
  modify (fun s =>
    {| showForm := showForm s; editingActivity := v;
       formData := formData s |}).

Definition setFormData (v : FormData) : Act State unit :=
  modify (fun s =>
    {| showForm := showForm s; editingActivity := editingActivity s;
       formData := v |}).

Section handlers.
Context `{Runtime} {P : Type} (onUpdate : Act P unit).

(** [new Date(value).toISOString()] *)
Definition toISOString {St} (value : string) : Act St string :=
  match Date_toISOString value with
  | Some timestamp => act_ret timestamp
  | None => throw RangeError
  end.

Definition handleSubmit (reply : Response unit) : Act (State * P) unit :=
  s <- own get ;;
  try_catch
    (timestamp <- toISOString (date_activite (formData s)) ;;
     let activityData :=
       {| ad_titre := titre (formData s);
          ad_description := description (formData s);
          ad_date_activite := timestamp;
          ad_branch := or_null (branch (formData s));
          ad_organ := or_null (organ (formData s));
          ad_lieu := lieu (formData s) |} in
     authorization <- bearer ;;
     match editingActivity s with
     | Some activity =>
         axios_put (API ++ "/admin/activities/" ++ Activity.id activity)
                   (ActivityBody activityData) authorization reply
     | None =>
         axios_post (API ++ "/admin/activities")
                    (ActivityBody activityData) authorization reply
     end ;;
     own (setFormData blank) ;;
     own (setShowForm false) ;;
     own (setEditingActivity None) ;;
     prop onUpdate)
    (fun error => console_error "Erreur:" error).

Definition handleDelete (activityId : string) (answer : bool)
    (reply : Response unit) : Act (State * P) unit :=
  confirmed <-
    window_confirm "Êtes-vous sûr de vouloir supprimer cette activité ?"
                   answer ;;
  if confirmed then
    try_catch
      (authorization <- bearer ;;
       axios_delete (API ++ "/admin/activities/" ++ activityId)
                    authorization reply ;;
       prop onUpdate)
      (fun error => console_error "Erreur:" error)
  else act_ret tt.

End handlers.

(** The rest of the form: prefill, open, cancel, typing. *)

Section form.
Context `{Runtime}.

Definition handleEdit (activity : Activity.t) : Act State unit :=
  setEditingActivity (Some activity) ;;
  timestamp <- toISOString (Activity.date_activite activity) ;;
  setFormData
    {| titre := Activity.titre activity;
       description := Activity.description activity;
       date_activite := default "" (head (split letter_T timestamp));
       branch := default "" (Activity.branch activity);
       organ := default "" (Activity.organ activity);
       lieu := default "" (Activity.lieu activity) |} ;;
  setShowForm true.

End form.

(** [Ajouter une activité]: [onClick={() => setShowForm(true)}] *)
Definition add_click : Act State unit :=
  setShowForm true.

(** [Annuler] *)
Definition cancel_click : Act State unit :=
  setShowForm false ;;
  setEditingActivity None ;;
  setFormData blank.

(** The inputs of the form; there is none for [organ]. *)
Inductive Field :=
| field_titre | field_date_activite | field_branch | field_lieu
| field_description.

(** [onChange={(e) => setFormData({...formData, <field>: e.target.value})}] *)
Definition change (field : Field) (value : string) : Act State unit :=
  s <- get ;;
  let form := formData s in
  setFormData
    match field with
    | field_titre =>
        {| titre := value; description := description form;
           date_activite := date_activite form; branch := branch form;
           organ := organ form; lieu := lieu form |}
    | field_date_activite =>
        {| titre := titre form; description := description form;
           date_activite := value; branch := branch form;
           organ := organ form; lieu := lieu form |}
    | field_branch =>
        {| titre := titre form; description := description form;
           date_activite := date_activite form; branch := value;
           organ := organ form; lieu := lieu form |}
    | field_lieu =>
        {| titre := titre form; description := description form;
           date_activite := date_activite form; branch := branch form;
           organ := organ form; lieu := value |}
    | field_description =>
        {| titre := titre form; description := value;
           date_activite := date_activite form; branch := branch form;
           organ := organ form; lieu := lieu form |}
    end.

Inductive Event :=
| Add
| Edit (activity : Activity.t)
| Change (field : Field) (value : string)
| Cancel
| Submit (reply : Response unit)
| Delete (activityId : string) (answer : bool) (reply : Response unit).

Section events.
Context `{Runtime} {P : Type} (onUpdate : Act P unit).

(** One user event; the inputs, [Annuler] and the submit button are inside
    [{showForm && <form>}] and exist only while the form is shown. *)
Definition dispatch (e : Event) (env : Env) (st : State * P)
  : option (Completion unit * Env * (State * P)) :=
  match e with
  | Add => Some (own add_click env st)
  | Edit activity => Some (own (handleEdit activity) env st)
  | Delete activityId answer reply =>
      Some (handleDelete onUpdate activityId answer reply env st)
  | Change field value =>
      if showForm st.1 then Some (own (change field value) env st) else None
  | Cancel =>
      if showForm st.1 then Some (own cancel_click env st) else None
  | Submit reply =>
      if showForm st.1 then Some (handleSubmit onUpdate reply env st)
      else None
  end.

Fixpoint run (events : list Event) (env : Env) (st : State * P)
  : option (Env * (State * P)) :=
  match events with
  | [] => Some (env, st)
  | e :: later =>
      match dispatch e env st with
      | Some (_, env', st') => run later env' st'
      | None => None
      end
  end.

End events.

End ActivitiesManagement.

(** ** [ProjectManagement] (lines 844-918) *)

Module ProjectManagement.

Record State := {
  formData : ProjectForm;
  loading : bool
}.

Definition init : State :=
  {| formData := {| pf_titre := ""; pf_contenu := "" |}; loading := false |}.

Definition setFormData (v : ProjectForm) : Act State unit :=
  modify (fun s => {| formData := v; loading := loading s |}).

Definition setLoading (v : bool) : Act State unit :=
  modify (fun s => {| formData := formData s; loading := v |}).

Section handlers.
Context `{Runtime} {P : Type} (onUpdate : Act P unit).

Definition handleSubmit (reply : Response unit) : Act (State * P) unit :=
  s <- own get ;;
  own (setLoading true) ;;
  finally
    (try_catch
       (authorization <- bearer ;;
        axios_put (API ++ "/admin/project") (ProjectBody (formData s))
                  authorization reply ;;
        prop onUpdate ;;
        alert "Projet pédagogique mis à jour avec succès !")
       (fun error =>
        console_error "Erreur:" error ;;
        alert "Erreur lors de la mise à jour"))
    (own (setLoading false)).

End handlers.

(** [useEffect(() => setFormData({ titre: project.titre,
    contenu: project.contenu }), [project])]: the form follows the
    [project] prop. *)
Definition syncForm (project : Project.t) : Act State unit :=
  setFormData
    {| pf_titre := Project.titre project;
       pf_contenu := Project.contenu project |}.

End ProjectManagement.

(** ** [AdminDashboard] (lines 379-515) *)

Module AdminDashboard.

Inductive Tab := dashboard | members_tab | activities_tab | project_tab.

Record State := {
  activeTab : Tab;
  stats : option Stats;
  members : list Member.t;
  activities : list Activity.t;
  project : Project.t
}.

Definition init : State :=
  {| activeTab := dashboard; stats := None; members := []; activities := [];
     project := Project.mk "" "" |}.

Definition setActiveTab (v : Tab) : Act State unit :=
  modify (fun s =>
    {| activeTab := v; stats := stats s; members := members s;
       activities := activities s; project := project s |}).

Definition setStats (v : option Stats) : Act State unit :=
  modify (fun s =>
    {| activeTab := activeTab s; stats := v; members := members s;
       activities := activities s; project := project s |}).

Definition setMembers (v : list Member.t) : Act State unit :=
  modify (fun s =>
    {| activeTab := activeTab s; stats := stats s; members := v;
       activities := activities s; project := project s |}).

Definition setActivities (v : list Activity.t) : Act State unit :=
  modify (fun s =>
    {| activeTab := activeTab s; stats := stats s; members := members s;
       activities := v; project := project s |}).

Definition setProject (v : Project.t) : Act State unit :=
  modify (fun s =>
    {| activeTab := activeTab s; stats := stats s; members := members s;
       activities := activities s; project := v |}).

Section handlers.
Context `{Runtime}.

Definition loadStats (reply : Response Stats) : Act State unit :=
  try_catch
    (authorization <- bearer ;;
     response <- axios_get (API ++ "/admin/stats") authorization reply ;;
     setStats (Some response))
    (fun error => console_error "Erreur stats:" error).

Definition loadMembers (reply : Response (list Member.t)) : Act State unit :=
  try_catch
    (response <- axios_get (API ++ "/members") None reply ;;
     setMembers response)
    (fun error => console_error "Erreur membres:" error).

Definition loadActivities (reply : Response (list Activity.t))
  : Act State unit :=
  try_catch
    (response <- axios_get (API ++ "/activities") None reply ;;
     setActivities response)
    (fun error => console_error "Erreur activités:" error).

Definition loadProject (reply : Response Project.t) : Act State unit :=
  try_catch
    (response <- axios_get (API ++ "/project") None reply ;;
     setProject response)
    (fun error => console_error "Erreur projet:" error).

End handlers.

(** The [Déconnexion] button: [onClick={logout}] with
    [const { logout } = useAuth()], the [logout] of the enclosing
    [AuthProvider].  The component is declared as [() => ...]: the
    [onLogout] prop it is given is not read. *)
Definition logout_click {P : Type} (onLogout : Act P unit)
  : Act (AuthProvider.State * P) unit :=
  own AuthProvider.logout.

Section mount.
Context `{Runtime}.

(** [useEffect(() => { loadStats(); loadMembers(); loadActivities();
    loadProject(); }, [])]: the four requests are sent in this order; the
    loaders write different state variables, each in its own
    [try]/[catch]. *)
Definition mount (statsReply : Response Stats)
    (membersReply : Response (list Member.t))
    (activitiesReply : Response (list Activity.t))
    (projectReply : Response Project.t) : Act State unit :=
  loadStats statsReply ;;
  loadMembers membersReply ;;
  loadActivities activitiesReply ;;
  loadProject projectReply.

End mount.

End AdminDashboard.

(** ** [App] (lines 920-953) *)

Module App.

Inductive View := public | login | admin.

Definition View_eqb (a b : View) : bool :=
  match a, b with
  | public, public | login, login | admin, admin => true
  | _, _ => false
  end.

Record State := {
  view : View;
  isAuthenticated : bool
}.

(** [useState('public')] and
    [useState(!!localStorage.getItem('adminToken'))] *)
Definition init (storage : gmap string string) : State :=
  {| view := public; isAuthenticated := truthy (storage !! "adminToken") |}.

Definition setView (v : View) : Act State unit :=
  modify (fun s => {| view := v; isAuthenticated := isAuthenticated s |}).

Definition setIsAuthenticated (v : bool) : Act State unit :=
  modify (fun s => {| view := view s; isAuthenticated := v |}).

Definition handleAdminClick : Act State unit :=
  setView login.

Definition handleLogin (token : string) : Act State unit :=
  localStorage_setItem "adminToken" token ;;
  setIsAuthenticated true ;;
  setView admin.

Definition handleLogout : Act State unit :=
  localStorage_removeItem "adminToken" ;;
  setIsAuthenticated false ;;
  setView public.

(** The children of [<AuthProvider><div className="App">], with their
    props. *)
Inductive Element :=
| PublicHome_ (onAdminClick : Act State unit)
| AdminLogin_ (onLogin : string -> Act State unit)
| AdminDashboard_ (onLogout : Act State unit).

Definition render (s : State) : list Element :=
  (if View_eqb (view s) public then [PublicHome_ handleAdminClick] else [])
  ++ (if View_eqb (view s) login then [AdminLogin_ handleLogin] else [])
  ++ (if View_eqb (view s) admin && isAuthenticated s
      then [AdminDashboard_ handleLogout] else []).

Definition is_dashboard (e : Element) : bool :=
  match e with
  | AdminDashboard_ _ => true
  | _ => false
  end.

(** Is the admin dashboard on screen? *)
Definition shows_dashboard (s : State) : bool :=
  existsb is_dashboard (render s).

End App.

(** ** The page: the root, the provider around it and the mounted login
    view, driven by the user's clicks *)

Module Page.

Record State := {
  env : Env;
  app : App.State;
  auth : AuthProvider.State;
  loginView : AdminLogin.State
}.

(** First render on a given [localStorage]. *)
Definition init (storage : gmap string string) : State :=
  {| env := {| localStorage := storage; effects := [] |};
     app := App.init storage;
     auth := AuthProvider.init storage;
     loginView := AdminLogin.init |}.

Inductive Event :=
| ClickAdmin
| TypeCredentials (c : Credentials)
| SubmitLogin (reply : Response LoginData)
| ClickLogout.

(** The props of the first element of each kind on screen. *)
Fixpoint find_home (els : list App.Element) : option (Act App.State unit) :=
  match els with
  | [] => None
  | App.PublicHome_ onAdminClick :: _ => Some onAdminClick
  | _ :: rest => find_home rest
  end.

Fixpoint find_login (els : list App.Element)
  : option (string -> Act App.State unit) :=
  match els with
  | [] => None
  | App.AdminLogin_ onLogin :: _ => Some onLogin
  | _ :: rest => find_login rest
  end.

Fixpoint find_dashboard (els : list App.Element)
  : option (Act App.State unit) :=
  match els with
  | [] => None
  | App.AdminDashboard_ onLogout :: _ => Some onLogout
  | _ :: rest => find_dashboard rest
  end.

Section dispatch.
Context `{Runtime}.

(** One user event, handled by the component on screen that receives it
    with the props [App] rendered it with; [None] when that component is
    not on screen.  [AdminLogin] is mounted afresh when the view switches
    to the login view. *)
Definition dispatch (e : Event) (p : State) : option State :=
  match e with
  | ClickAdmin =>
      match find_home (App.render (app p)) with
      | Some onAdminClick =>
          let '(_, env', app') := onAdminClick (env p) (app p) in
          Some {| env := env'; app := app'; auth := auth p;
                  loginView := AdminLogin.init |}
      | None => None
      end
  | TypeCredentials c =>
      match find_login (App.render (app p)) with
      | Some _ =>
          let '(_, env', login') :=
            AdminLogin.setCredentials c (env p) (loginView p) in
          Some {| env := env'; app := app p; auth := auth p;
                  loginView := login' |}
      | None => None
      end
  | SubmitLogin reply =>
      match find_login (App.render (app p)) with
      | Some onLogin =>
          let '(_, env', (login', app')) :=
            AdminLogin.handleLogin onLogin reply (env p) (loginView p, app p) in
          Some {| env := env'; app := app'; auth := auth p;
                  loginView := login' |}
      | None => None
      end
  | ClickLogout =>
      match find_dashboard (App.render (app p)) with
      | Some onLogout =>
          let '(_, env', (auth', app')) :=
            AdminDashboard.logout_click onLogout (env p) (auth p, app p) in
          Some {| env := env'; app := app'; auth := auth';
                  loginView := loginView p |}
      | None => None
      end
  end.

(** The states the page can be in after any number of events. *)
Inductive reachable (storage : gmap string string) : State -> Prop :=
| reachable_init : reachable storage (init storage)
| reachable_step p e p' :
    reachable storage p -> dispatch e p = Some p' -> reachable storage p'.

End dispatch.

(** The persisted token, [localStorage.getItem('adminToken')]. *)
Definition persisted (p : State) : option string :=
  localStorage (env p) !! "adminToken".

End Page.

(** ** Observing a run of a handler *)

Definition outcome {St A} (r : Completion A * Env * St) : Completion A := r.1.1.
Definition env_after {St A} (r : Completion A * Env * St) : Env := r.1.2.
Definition state_after {St A} (r : Completion A * Env * St) : St := r.2.

(** The effects a run added to the log of [env]. *)
Definition new_effects {St A} (env : Env) (r : Completion A * Env * St)
  : list Effect :=
  drop (length (effects env)) (effects (env_after r)).

(** The events of a list, in order; [None] as soon as one of them has no
    component on screen to receive it. *)
Fixpoint run_events `{Runtime} (events : list Page.Event) (p : Page.State)
  : option Page.State :=
  match events with
  | [] => Some p
  | e :: later =>
      match Page.dispatch e p with
      | Some p' => run_events later p'
      | None => None
      end
  end.

(** The session as the specification words it: in every component that
    holds them, the token is the persisted one and the flag says whether
    there is one. *)
Definition session_in_step (p : Page.State) : Prop :=
  AuthProvider.token (Page.auth p) = Page.persisted p
  /\ AuthProvider.isAuthenticated (Page.auth p)
     = bool_decide (is_Some (Page.persisted p))
  /\ App.isAuthenticated (Page.app p)
     = bool_decide (is_Some (Page.persisted p)).

(** ** A development deployment, for concrete runs

    Its string functions work on bytes: they are those of JavaScript on
    ASCII strings, which is what the runs below give them. *)

Definition upper (c : Ascii.ascii) : Ascii.ascii :=
  let n := Ascii.nat_of_ascii c in
  if bool_decide (97 <= n <= 122) then Ascii.ascii_of_nat (n - 32) else c.

Fixpoint map_string (f : Ascii.ascii -> Ascii.ascii) (s : string) : string :=
  match s with
  | EmptyString => EmptyString
  | String c rest => String (f c) (map_string f rest)
  end.

Definition local_runtime : Runtime :=
  {| BACKEND_URL := "http://localhost:8001";
     parseInt := fun s => if String.eqb s "10" then Some 10%Z else None;
     Date_toISOString := fun s =>
       if String.eqb s "" then None else Some (s ++ "T00:00:00.000Z");
     Date_toLocaleDateString := fun s => s;
     toUpperCase := map_string upper;
     String_charAt := fun i s => String.substring i 1 s;
     String_slice := fun i s => String.substring i (String.length s - i) s;
     Number_toString_unsafe := fun _ => "Infinity" |}.

Definition no_env : Env := {| localStorage := ∅; effects := [] |}.

Definition jean : Member.t :=
  Member.mk "m1" "Dupont" "Jean" (Some 10%Z) "meute".
Definition lea : Member.t :=
  Member.mk "m2" "Martin" "Léa" (Some 13%Z) "troupe".
Definition paul : Member.t :=
  Member.mk "m3" "Petit" "Paul" (Some 9%Z) "meute".

Definition four_branches : list Branch.t :=
  [ Branch.mk "meute" "Meute" "8-11 ans" "Louveteaux";
    Branch.mk "troupe" "Troupe" "12-14 ans" "Scouts";
    Branch.mk "compagnie" "Compagnie" "15-17 ans" "Pionniers";
    Branch.mk "clan" "Clan" "18-21 ans" "Routiers" ].

Definition camp (n : string) : Activity.t :=
  Activity.mk n ("Camp " ++ n) "Sortie" "2024-07-01" (Some "meute") None None.

Definition seven_camps : list Activity.t :=
  [camp "1"; camp "2"; camp "3"; camp "4"; camp "5"; camp "6"; camp "7"].

(** The page after the user opened the login view on an empty
    [localStorage] and logged in with token [t]. *)
Definition logged_in : option Page.State :=
  run_events (H := local_runtime)
    [Page.ClickAdmin; Page.SubmitLogin (Fulfilled {| access_token := "t" |})]
    (Page.init ∅).

(** ... and then clicked [Déconnexion]. *)
Definition logged_out : option Page.State :=
  run_events (H := local_runtime)
    [Page.ClickAdmin; Page.SubmitLogin (Fulfilled {| access_token := "t" |});
     Page.ClickLogout]
    (Page.init ∅).

(** The environment in which the refresh callback runs after a confirmed
    and fulfilled delete: the prompt was shown and the [DELETE] was sent. *)
Definition after_delete (prompt url : string) (env : Env) : Env :=
  {| localStorage := localStorage env;
     effects :=
       (effects env ++ [Confirm prompt]) ++
       [Http DELETE url
          (Some ("Bearer " ++ template (localStorage env !! "adminToken")))
          NoBody] |}.


(** A log made of requests and [console.error] lines shows the user
    nothing. *)
Definition silent (added : list Effect) : Prop :=
  List.filter is_alert added = [].

(** The rows a panel shows; none under the placeholder. *)
Definition shown {A} (p : Panel A) : list A :=
  match p with
  | Rows rows => rows
  | Placeholder _ => []
  end.

(** Does [c] occur in [s]? *)
Fixpoint occurs (c : Ascii.ascii) (s : string) : bool :=
  match s with
  | EmptyString => false
  | String c' rest => Ascii.eqb c' c || occurs c rest
  end.

(** The four branch keys. *)
Definition branch_keys : list string :=
  ["meute"; "troupe"; "compagnie"; "clan"].

(** The member count as the specification words it: the number of fetched
    members whose branch field equals the key. *)
Definition members_of_branch (key : string) (fetched : list Member.t) : nat :=
  length (filter (fun m => Member.branch m = key) fetched).

(** How many times [c] occurs in [s]. *)
Fixpoint occurrences (c : Ascii.ascii) (s : string) : nat :=
  match s with
  | EmptyString => 0
  | String c' rest =>
      (if Ascii.eqb c' c then 1 else 0) + occurrences c rest
  end.


(** The page [logged_in] evaluates to, and the one before it. *)
Definition login_page : Page.State :=
  {| Page.env := no_env;
     Page.app := {| App.view := App.login; App.isAuthenticated := false |};
     Page.auth := AuthProvider.init ∅;
     Page.loginView := AdminLogin.init |}.

Definition admin_page : Page.State :=
  {| Page.env :=
       {| localStorage := {["adminToken" := "t"]};
          effects :=
            [Http POST "http://localhost:8001/api/auth/login" None
               (CredentialsBody {| username := ""; password := "" |})] |};
     Page.app := {| App.view := App.admin; App.isAuthenticated := true |};
     Page.auth := AuthProvider.init ∅;
     Page.loginView := AdminLogin.init |}.

Definition fetched_branches : BranchesData :=
  {| data_branches := four_branches; data_organs := [] |}.

Definition meute_card : PublicHome.BranchCardProps :=
  {| PublicHome.key := "meute";
     PublicHome.branch := Branch.mk "meute" "Meute" "8-11 ans" "Louveteaux";
     PublicHome.memberCount := 2 |}.

(** The text [A], a newline, [B]. *)
Definition two_lines : string := "A" ++ String newline "B".

Definition project_form : ProjectForm :=
  {| pf_titre := "X"; pf_contenu := two_lines |}.

(** The [Authorization] headers of the requests of a log, in order. *)
Definition authorizations (log : list Effect) : list (option string) :=
  omap (fun e => match e with
                 | Http _ _ authorization _ => Some authorization
                 | _ => None
                 end) log.

(** The requests of a log, in order. *)
Definition requests (log : list Effect) : list Effect :=
  List.filter is_http log.

(** The alerts of a log, in order. *)
Definition alerts (log : list Effect) : list Effect :=
  List.filter is_alert log.

(** Events of the members form that are neither [Annuler], nor an edit
    click, nor a submission. *)
Definition keeps_target (e : MembersManagement.Event) : bool :=
  match e with
  | MembersManagement.Add
  | MembersManagement.Change _ _
  | MembersManagement.Delete _ _ _ => true
  | _ => false
  end.

Definition leonie : Member.t :=
  Member.mk "m4" "Roux" "Léonie" None "pionniers".

Definition some_storage : gmap string string :=
  <["theme" := "dark"]> (<["adminToken" := "old"]> ∅).

(** With nothing under edit, the [organ] field of the form is blank. *)
Definition no_organ_unless_editing (s : ActivitiesManagement.State) : Prop :=
  ActivitiesManagement.editingActivity s = None ->
  ActivitiesManagement.organ (ActivitiesManagement.formData s) = "".

(** Edit clicks of the members form on records that carry an age. *)
Definition edits_have_age (e : MembersManagement.Event) : bool :=
  match e with
  | MembersManagement.Edit member =>
      match Member.age member with
      | Some _ => true
      | None => false
      end
  | _ => true
  end.

(** A fresh card with nothing in flight. *)
Definition idle_card : BranchCard.InFlight :=
  {| BranchCard.card := BranchCard.init;
     BranchCard.awaiting_members := 0;
     BranchCard.awaiting_activities := 0 |}.

Definition meute_branch : Branch.t :=
  Branch.mk "meute" "Meute" "8-11 ans" "Louveteaux".

(** * Properties *)

Local Open Scope nat_scope.

(** Unfolding the monad: a handler applied to an environment and a state
    reduces to its result. *)
Ltac run_handler :=
  cbv [act_bind act_ret throw try_catch finally get modify emit own prop
       axios axios_get axios_post axios_put axios_delete bearer
       localStorage_getItem localStorage_setItem localStorage_removeItem
       console_error alert window_confirm
       outcome env_after state_after];
  cbn [fst snd localStorage effects].

(** ** Session: [AuthProvider] and [App] *)

Lemma AuthProvider_login_spec (t : string) (env : Env) (s : AuthProvider.State) :
  AuthProvider.login t env s =
  (Normal tt,
   {| localStorage := <["adminToken" := t]> (localStorage env);
      effects := effects env |},
   {| AuthProvider.token := Some t; AuthProvider.isAuthenticated := true |}).
Proof. reflexivity. Qed.

Lemma AuthProvider_logout_spec (env : Env) (s : AuthProvider.State) :
  AuthProvider.logout env s =
  (Normal tt,
   {| localStorage := delete "adminToken" (localStorage env);
      effects := effects env |},
   {| AuthProvider.token := None; AuthProvider.isAuthenticated := false |}).
Proof. reflexivity. Qed.

Lemma App_handleLogin_spec (t : string) (env : Env) (a : App.State) :
  App.handleLogin t env a =
  (Normal tt,
   {| localStorage := <["adminToken" := t]> (localStorage env);
      effects := effects env |},
   {| App.view := App.admin; App.isAuthenticated := true |}).
Proof. reflexivity. Qed.

Lemma App_handleLogout_spec (env : Env) (a : App.State) :
  App.handleLogout env a =
  (Normal tt,
   {| localStorage := delete "adminToken" (localStorage env);
      effects := effects env |},
   {| App.view := App.public; App.isAuthenticated := false |}).
Proof. reflexivity. Qed.

(** C1, as amended.  Each of the four session writers updates the persisted
    token together with the flag of the component it belongs to: after
    [AuthProvider.login t] the persisted token and the provider's token are
    [t] and the provider's flag is true; after [AuthProvider.logout] both
    tokens are absent and the provider's flag is false; after
    [App.handleLogin t] the persisted token is [t] and the root's flag is
    true; after [App.handleLogout] the persisted token is absent and the
    root's flag is false. *)
Theorem session_writers_update_token_and_own_flag
    (t : string) (env : Env) (s : AuthProvider.State) (a : App.State) :
  (let r := AuthProvider.login t env s in
   localStorage (env_after r) !! "adminToken" = Some t
   /\ AuthProvider.token (state_after r) = Some t
   /\ AuthProvider.isAuthenticated (state_after r) = true)
  /\ (let r := AuthProvider.logout env s in
      localStorage (env_after r) !! "adminToken" = None
      /\ AuthProvider.token (state_after r) = None
      /\ AuthProvider.isAuthenticated (state_after r) = false)
  /\ (let r := App.handleLogin t env a in
      localStorage (env_after r) !! "adminToken" = Some t
      /\ App.isAuthenticated (state_after r) = true)
  /\ (let r := App.handleLogout env a in
      localStorage (env_after r) !! "adminToken" = None
      /\ App.isAuthenticated (state_after r) = false).
Proof.
  rewrite AuthProvider_login_spec, AuthProvider_logout_spec,
    App_handleLogin_spec, App_handleLogout_spec.
  cbv [env_after state_after]; cbn.
  rewrite lookup_insert_eq, lookup_delete_eq. tauto.
Qed.

Lemma logged_in_eq : logged_in = Some admin_page.
Proof. vm_compute. reflexivity. Qed.

Lemma logged_out_eq :
  logged_out =
  Some {| Page.env :=
            {| localStorage := ∅;
               effects :=
                 [Http POST "http://localhost:8001/api/auth/login" None
                    (CredentialsBody {| username := ""; password := "" |})] |};
          Page.app := {| App.view := App.admin; App.isAuthenticated := true |};
          Page.auth :=
            {| AuthProvider.token := None;
               AuthProvider.isAuthenticated := false |};
          Page.loginView := AdminLogin.init |}.
Proof. vm_compute. reflexivity. Qed.

(** C1, as stated, fails.  After a login through the login view on an empty
    [localStorage], the persisted token is [t] and the root's flag is true
    while the provider still holds no token and its flag is false: the
    session is not in step across the two components. *)
Lemma login_leaves_provider_behind :
  exists p, logged_in = Some p
    /\ Page.persisted p = Some "t"
    /\ App.isAuthenticated (Page.app p) = true
    /\ AuthProvider.token (Page.auth p) = None
    /\ AuthProvider.isAuthenticated (Page.auth p) = false
    /\ ~ session_in_step p.
Proof.
  eexists. split; [apply logged_in_eq|].
  repeat split; try reflexivity.
  intros (Htoken & _). vm_compute in Htoken. discriminate.
Qed.

(** C3: the code at the failing input.  Logged in with the dashboard on
    screen, a click on [Déconnexion] removes the persisted token and clears
    the provider's flag, but the root keeps [view = admin] and
    [isAuthenticated = true]: the dashboard stays on screen. *)
Theorem dashboard_logout_leaves_root_untouched :
  exists p, logged_out = Some p
    /\ Page.persisted p = None
    /\ AuthProvider.isAuthenticated (Page.auth p) = false
    /\ App.view (Page.app p) = App.admin
    /\ App.isAuthenticated (Page.app p) = true
    /\ App.shows_dashboard (Page.app p) = true.
Proof.
  eexists. split; [apply logged_out_eq|].
  repeat split; reflexivity.
Qed.

(** What [handleLogout], the prop handed to the dashboard, would have done
    at the same point. *)
Lemma handleLogout_resets_root (env : Env) (a : App.State) :
  let r := App.handleLogout env a in
  App.view (state_after r) = App.public
  /\ App.isAuthenticated (state_after r) = false
  /\ localStorage (env_after r) !! "adminToken" = None
  /\ App.shows_dashboard (state_after r) = false.
Proof.
  rewrite App_handleLogout_spec. cbv [env_after state_after]; cbn.
  rewrite lookup_delete_eq. auto.
Qed.

(** The logout click on any page: the root state is the one before. *)
Lemma logout_click_frame `{Runtime} (p p' : Page.State) :
  Page.dispatch Page.ClickLogout p = Some p' ->
  Page.app p' = Page.app p
  /\ Page.persisted p' = None
  /\ Page.auth p' =
     {| AuthProvider.token := None; AuthProvider.isAuthenticated := false |}.
Proof.
  unfold Page.dispatch.
  destruct (Page.find_dashboard _) as [onLogout|]; [|discriminate].
  unfold AdminDashboard.logout_click, own.
  rewrite AuthProvider_logout_spec. intros [= <-].
  unfold Page.persisted; cbn. rewrite lookup_delete_eq. auto.
Qed.

(** ** The root's render *)

Lemma shows_dashboard_iff (a : App.State) :
  App.shows_dashboard a = true
  <-> App.view a = App.admin /\ App.isAuthenticated a = true.
Proof.
  destruct a as [[] []]; cbn; intuition discriminate.
Qed.

(** C10.  In every reachable state of the page, the admin dashboard is on
    screen exactly when the root's view selector is [admin] and the root's
    authenticated flag is true; with the flag false it is not on screen. *)
Theorem dashboard_only_when_admin_and_authenticated `{Runtime}
    (storage : gmap string string) (p : Page.State) :
  Page.reachable storage p ->
  (App.shows_dashboard (Page.app p) = true
   <-> App.view (Page.app p) = App.admin
       /\ App.isAuthenticated (Page.app p) = true)
  /\ (App.isAuthenticated (Page.app p) = false ->
      App.shows_dashboard (Page.app p) = false).
Proof.
  intros _. split; [apply shows_dashboard_iff|].
  intros Hflag. destruct (App.shows_dashboard _) eqn:Hshow; [|reflexivity].
  apply shows_dashboard_iff in Hshow as [_ Htrue]. congruence.
Qed.

(** In every reachable state the admin view comes with the root's flag
    set: [handleLogin] is the only writer of [admin]. *)
Lemma admin_view_is_authenticated `{Runtime}
    (storage : gmap string string) (p : Page.State) :
  Page.reachable storage p ->
  App.view (Page.app p) = App.admin ->
  App.isAuthenticated (Page.app p) = true.
Proof.
  induction 1 as [|p e p' Hreach IH Hstep]; [discriminate|].
  destruct e.
  - destruct p as [env [[] []] auth lv]; cbn in Hstep; try discriminate;
      injection Hstep as <-; cbn; discriminate.
  - destruct p as [env [[] []] auth lv]; cbn in Hstep; try discriminate;
      injection Hstep as <-; cbn; discriminate.
  - destruct p as [env [[] []] auth lv]; cbn in Hstep; try discriminate;
      destruct reply; cbn in Hstep; injection Hstep as <-; cbn; auto;
      discriminate.
  - apply logout_click_frame in Hstep as (-> & _). exact IH.
Qed.

(** ** The login view *)

Lemma handleLogin_rejected `{Runtime} {P : Type}
    (onLogin : string -> Act P unit) (why : Failure)
    (env : Env) (s : AdminLogin.State) (parent : P) :
  AdminLogin.handleLogin onLogin (Rejected why) env (s, parent) =
  (Normal tt,
   {| localStorage := localStorage env;
      effects := effects env ++
        [Http POST (API ++ "/auth/login") None
           (CredentialsBody (AdminLogin.credentials s))] |},
   ({| AdminLogin.credentials := AdminLogin.credentials s;
       AdminLogin.loading := false;
       AdminLogin.error := AdminLogin.error_message |}, parent)).
Proof. reflexivity. Qed.

(** C7.  For every rejected login attempt, whatever the reason of the
    rejection, the login view ends in its error state, shows the one fixed
    message, can be submitted again, and the root's authenticated flag,
    false before, is false after (the root and the persisted token are
    untouched). *)
Theorem rejected_login_shows_fixed_error `{Runtime}
    (why : Failure) (env : Env) (s : AdminLogin.State) (a : App.State) :
  App.isAuthenticated a = false ->
  let r := AdminLogin.handleLogin App.handleLogin (Rejected why) env (s, a) in
  let s' := (state_after r).1 in
  let a' := (state_after r).2 in
  AdminLogin.phase s' = AdminLogin.failed
  /\ AdminLogin.banner (AdminLogin.render s')
     = Some "Nom d'utilisateur ou mot de passe incorrect"
  /\ AdminLogin.submit_disabled (AdminLogin.render s') = false
  /\ App.isAuthenticated a' = false
  /\ a' = a
  /\ localStorage (env_after r) = localStorage env.
Proof.
  intros Hflag. rewrite handleLogin_rejected.
  cbv [state_after env_after]; cbn. repeat split; auto.
Qed.


(** ** Deleting a member or an activity *)

Lemma new_effects_app {St A} (env : Env) (r : Completion A * Env * St)
    (added : list Effect) :
  effects (env_after r) = (effects env ++ added)%list ->
  new_effects env r = added.
Proof. unfold new_effects. intros ->. apply drop_app_length. Qed.

Lemma members_handleDelete_unconfirmed `{Runtime} {P : Type}
    (onUpdate : Act P unit) (memberId : string) (reply : Response unit)
    (env : Env) (s : MembersManagement.State) (parent : P) :
  MembersManagement.handleDelete onUpdate memberId false reply env (s, parent) =
  (Normal tt,
   {| localStorage := localStorage env;
      effects := effects env ++
        [Confirm "Êtes-vous sûr de vouloir supprimer ce membre ?"] |},
   (s, parent)).
Proof. reflexivity. Qed.

Lemma activities_handleDelete_unconfirmed `{Runtime} {P : Type}
    (onUpdate : Act P unit) (activityId : string) (reply : Response unit)
    (env : Env) (s : ActivitiesManagement.State) (parent : P) :
  ActivitiesManagement.handleDelete onUpdate activityId false reply
    env (s, parent) =
  (Normal tt,
   {| localStorage := localStorage env;
      effects := effects env ++
        [Confirm "Êtes-vous sûr de vouloir supprimer cette activité ?"] |},
   (s, parent)).
Proof. reflexivity. Qed.

Lemma members_handleDelete_confirmed `{Runtime} {P : Type}
    (onUpdate : Act P unit) (memberId : string)
    (env : Env) (s : MembersManagement.State) (parent : P) :
  let sent_env :=
    after_delete "Êtes-vous sûr de vouloir supprimer ce membre ?"
      (API ++ "/admin/members/" ++ memberId) env in
  state_after
    (MembersManagement.handleDelete onUpdate memberId true (Fulfilled tt)
       env (s, parent))
  = (s, state_after (onUpdate sent_env parent)).
Proof.
  cbv [MembersManagement.handleDelete after_delete]. run_handler.
  destruct (onUpdate _ parent) as [[[] env'] parent']; reflexivity.
Qed.

Lemma activities_handleDelete_confirmed `{Runtime} {P : Type}
    (onUpdate : Act P unit) (activityId : string)
    (env : Env) (s : ActivitiesManagement.State) (parent : P) :
  let sent_env :=
    after_delete "Êtes-vous sûr de vouloir supprimer cette activité ?"
      (API ++ "/admin/activities/" ++ activityId) env in
  state_after
    (ActivitiesManagement.handleDelete onUpdate activityId true (Fulfilled tt)
       env (s, parent))
  = (s, state_after (onUpdate sent_env parent)).
Proof.
  cbv [ActivitiesManagement.handleDelete after_delete]. run_handler.
  destruct (onUpdate _ parent) as [[[] env'] parent']; reflexivity.
Qed.

(** C8.  For a delete of a member or of an activity: when the user does not
    confirm the prompt, the only effect is the prompt itself (no request is
    sent), and the component's state, the state of the component that owns
    the entity list and [localStorage] are unchanged; when the user confirms
    and the [DELETE] is fulfilled, the refresh callback is run on its
    owner's state, after the request was sent. *)
Theorem delete_asks_before_calling `{Runtime} {P : Type}
    (onUpdate : Act P unit) (id : string) (reply : Response unit)
    (env : Env) (m : MembersManagement.State)
    (a : ActivitiesManagement.State) (parent : P) :
  (let r := MembersManagement.handleDelete onUpdate id false reply
              env (m, parent) in
   new_effects env r
     = [Confirm "Êtes-vous sûr de vouloir supprimer ce membre ?"]
   /\ List.filter is_http (new_effects env r) = []
   /\ state_after r = (m, parent)
   /\ localStorage (env_after r) = localStorage env)
  /\ (let r := ActivitiesManagement.handleDelete onUpdate id false reply
                 env (a, parent) in
      new_effects env r
        = [Confirm "Êtes-vous sûr de vouloir supprimer cette activité ?"]
      /\ List.filter is_http (new_effects env r) = []
      /\ state_after r = (a, parent)
      /\ localStorage (env_after r) = localStorage env)
  /\ state_after
       (MembersManagement.handleDelete onUpdate id true (Fulfilled tt)
          env (m, parent))
     = (m, state_after
             (onUpdate
                (after_delete "Êtes-vous sûr de vouloir supprimer ce membre ?"
                   (API ++ "/admin/members/" ++ id) env)
                parent))
  /\ state_after
       (ActivitiesManagement.handleDelete onUpdate id true (Fulfilled tt)
          env (a, parent))
     = (a, state_after
             (onUpdate
                (after_delete
                   "Êtes-vous sûr de vouloir supprimer cette activité ?"
                   (API ++ "/admin/activities/" ++ id) env)
                parent)).
Proof.
  rewrite members_handleDelete_unconfirmed, activities_handleDelete_unconfirmed.
  repeat split;
    try (erewrite new_effects_app by reflexivity; reflexivity);
    try reflexivity.
  - apply members_handleDelete_confirmed.
  - apply activities_handleDelete_confirmed.
Qed.

(** In the dashboard, where the refresh callback of the members tab is
    [loadMembers]: an unconfirmed delete leaves the member list as it is,
    a confirmed and fulfilled one replaces it by the refreshed list. *)
Lemma dashboard_member_delete `{Runtime}
    (id : string) (refreshed : list Member.t)
    (env : Env) (m : MembersManagement.State) (d : AdminDashboard.State) :
  let onUpdate := AdminDashboard.loadMembers (Fulfilled refreshed) in
  AdminDashboard.members
    (state_after
       (MembersManagement.handleDelete onUpdate id false (Fulfilled tt)
          env (m, d))).2
  = AdminDashboard.members d
  /\ AdminDashboard.members
       (state_after
          (MembersManagement.handleDelete onUpdate id true (Fulfilled tt)
             env (m, d))).2
     = refreshed.
Proof. split; reflexivity. Qed.

(** ** Failed mutations *)

Lemma members_handleSubmit_rejected `{Runtime} {P : Type}
    (onUpdate : Act P unit) (why : Failure)
    (env : Env) (s : MembersManagement.State) (parent : P) :
  let data :=
    MemberBody
      {| md_nom := MembersManagement.nom (MembersManagement.formData s);
         md_prenom := MembersManagement.prenom (MembersManagement.formData s);
         md_age := parseInt (MembersManagement.age (MembersManagement.formData s));
         md_branch := MembersManagement.branch (MembersManagement.formData s) |} in
  let authorization :=
    Some ("Bearer " ++ template (localStorage env !! "adminToken")) in
  let request :=
    match MembersManagement.editingMember s with
    | Some member =>
        Http PUT (API ++ "/admin/members/" ++ Member.id member)
             authorization data
    | None => Http POST (API ++ "/admin/members") authorization data
    end in
  MembersManagement.handleSubmit onUpdate (Rejected why) env (s, parent) =
  (Normal tt,
   {| localStorage := localStorage env;
      effects :=
        (effects env ++ [request])
        ++ [ConsoleError "Erreur:" (AxiosError why)] |},
   (s, parent)).
Proof.
  cbv [MembersManagement.handleSubmit]. run_handler.
  destruct (MembersManagement.editingMember s); reflexivity.
Qed.

Lemma members_handleDelete_rejected `{Runtime} {P : Type}
    (onUpdate : Act P unit) (memberId : string) (why : Failure)
    (env : Env) (s : MembersManagement.State) (parent : P) :
  MembersManagement.handleDelete onUpdate memberId true (Rejected why)
    env (s, parent) =
  (Normal tt,
   {| localStorage := localStorage env;
      effects :=
        effects (after_delete "Êtes-vous sûr de vouloir supprimer ce membre ?"
                   (API ++ "/admin/members/" ++ memberId) env)
        ++ [ConsoleError "Erreur:" (AxiosError why)] |},
   (s, parent)).
Proof. reflexivity. Qed.

Lemma activities_handleSubmit_rejected `{Runtime} {P : Type}
    (onUpdate : Act P unit) (why : Failure)
    (env : Env) (s : ActivitiesManagement.State) (parent : P) :
  let form := ActivitiesManagement.formData s in
  let authorization :=
    Some ("Bearer " ++ template (localStorage env !! "adminToken")) in
  let added :=
    match Date_toISOString (ActivitiesManagement.date_activite form) with
    | Some timestamp =>
        let data :=
          ActivityBody
            {| ad_titre := ActivitiesManagement.titre form;
               ad_description := ActivitiesManagement.description form;
               ad_date_activite := timestamp;
               ad_branch := or_null (ActivitiesManagement.branch form);
               ad_organ := or_null (ActivitiesManagement.organ form);
               ad_lieu := ActivitiesManagement.lieu form |} in
        [match ActivitiesManagement.editingActivity s with
         | Some activity =>
             Http PUT (API ++ "/admin/activities/" ++ Activity.id activity)
                  authorization data
         | None => Http POST (API ++ "/admin/activities") authorization data
         end;
         ConsoleError "Erreur:" (AxiosError why)]
    | None => [ConsoleError "Erreur:" RangeError]
    end in
  ActivitiesManagement.handleSubmit onUpdate (Rejected why) env (s, parent) =
  (Normal tt,
   {| localStorage := localStorage env;
      effects := (effects env ++ added)%list |},
   (s, parent)).
Proof.
  cbv [ActivitiesManagement.handleSubmit ActivitiesManagement.toISOString].
  run_handler.
  destruct (Date_toISOString _); run_handler; [|reflexivity].
  destruct (ActivitiesManagement.editingActivity s); cbn;
    rewrite <- app_assoc; reflexivity.
Qed.

Lemma activities_handleDelete_rejected `{Runtime} {P : Type}
    (onUpdate : Act P unit) (activityId : string) (why : Failure)
    (env : Env) (s : ActivitiesManagement.State) (parent : P) :
  ActivitiesManagement.handleDelete onUpdate activityId true (Rejected why)
    env (s, parent) =
  (Normal tt,
   {| localStorage := localStorage env;
      effects :=
        effects
          (after_delete "Êtes-vous sûr de vouloir supprimer cette activité ?"
             (API ++ "/admin/activities/" ++ activityId) env)
        ++ [ConsoleError "Erreur:" (AxiosError why)] |},
   (s, parent)).
Proof. reflexivity. Qed.

Lemma project_handleSubmit_rejected `{Runtime} {P : Type}
    (onUpdate : Act P unit) (why : Failure)
    (env : Env) (s : ProjectManagement.State) (parent : P) :
  ProjectManagement.handleSubmit onUpdate (Rejected why) env (s, parent) =
  (Normal tt,
   {| localStorage := localStorage env;
      effects :=
        ((effects env ++
          [Http PUT (API ++ "/admin/project")
             (Some ("Bearer " ++ template (localStorage env !! "adminToken")))
             (ProjectBody (ProjectManagement.formData s))])
         ++ [ConsoleError "Erreur:" (AxiosError why)])
        ++ [Alert "Erreur lors de la mise à jour"] |},
   ({| ProjectManagement.formData := ProjectManagement.formData s;
       ProjectManagement.loading := false |}, parent)).
Proof. reflexivity. Qed.

(** C4, as amended.  When the call of a member or activity create, update
    or delete is rejected, the failure is written to the console and
    nothing else happens: no alert, the component's state (its form
    included), its owner's state and [localStorage] unchanged.  When the
    call of a project update is rejected, the failure is written to the
    console and also shown to the user in an alert,
    [Erreur lors de la mise à jour]; the form data are unchanged and the
    form can be submitted again. *)
Theorem failed_mutation_feedback `{Runtime} {P : Type}
    (onUpdate : Act P unit) (why : Failure) (id : string) (env : Env)
    (m : MembersManagement.State) (a : ActivitiesManagement.State)
    (pr : ProjectManagement.State) (parent : P) :
  (let r := MembersManagement.handleSubmit onUpdate (Rejected why)
              env (m, parent) in
   last (new_effects env r) = Some (ConsoleError "Erreur:" (AxiosError why))
   /\ silent (new_effects env r)
   /\ state_after r = (m, parent)
   /\ localStorage (env_after r) = localStorage env)
  /\ (let r := MembersManagement.handleDelete onUpdate id true (Rejected why)
                 env (m, parent) in
      last (new_effects env r) = Some (ConsoleError "Erreur:" (AxiosError why))
      /\ silent (new_effects env r)
      /\ state_after r = (m, parent)
      /\ localStorage (env_after r) = localStorage env)
  /\ (let r := ActivitiesManagement.handleSubmit onUpdate (Rejected why)
                 env (a, parent) in
      (exists error,
         last (new_effects env r) = Some (ConsoleError "Erreur:" error))
      /\ silent (new_effects env r)
      /\ state_after r = (a, parent)
      /\ localStorage (env_after r) = localStorage env)
  /\ (let r := ActivitiesManagement.handleDelete onUpdate id true
                 (Rejected why) env (a, parent) in
      last (new_effects env r) = Some (ConsoleError "Erreur:" (AxiosError why))
      /\ silent (new_effects env r)
      /\ state_after r = (a, parent)
      /\ localStorage (env_after r) = localStorage env)
  /\ (let r := ProjectManagement.handleSubmit onUpdate (Rejected why)
                 env (pr, parent) in
      new_effects env r
        = [Http PUT (API ++ "/admin/project")
             (Some ("Bearer " ++ template (localStorage env !! "adminToken")))
             (ProjectBody (ProjectManagement.formData pr));
           ConsoleError "Erreur:" (AxiosError why);
           Alert "Erreur lors de la mise à jour"]
      /\ ProjectManagement.formData (state_after r).1
         = ProjectManagement.formData pr
      /\ ProjectManagement.loading (state_after r).1 = false
      /\ (state_after r).2 = parent
      /\ localStorage (env_after r) = localStorage env).
Proof.
  rewrite members_handleSubmit_rejected, members_handleDelete_rejected,
    activities_handleSubmit_rejected, activities_handleDelete_rejected,
    project_handleSubmit_rejected.
  unfold silent, after_delete; cbn [effects].
  repeat split; try reflexivity;
    try (erewrite new_effects_app
           by (cbv [env_after]; cbn; rewrite <- ?app_assoc; reflexivity)).
  all: try reflexivity.
  all: try (destruct (MembersManagement.editingMember m); reflexivity).
  all: destruct (Date_toISOString _); [|cbn; eauto].
  all: destruct (ActivitiesManagement.editingActivity a); cbn; eauto.
Qed.

(** C4, as stated, fails: a rejected project update is shown to the user.
    On a fresh project form, a rejected [PUT /admin/project] ends with the
    alert [Erreur lors de la mise à jour], so the log of the run is not
    silent. *)
Lemma failed_project_update_alerts :
  let r := ProjectManagement.handleSubmit (H := local_runtime) (act_ret tt)
             (Rejected NetworkError) no_env (ProjectManagement.init, tt) in
  last (new_effects no_env r) = Some (Alert "Erreur lors de la mise à jour")
  /\ ~ silent (new_effects no_env r).
Proof. split; [reflexivity|]. vm_compute. discriminate. Qed.

(** ** Branch cards *)

Lemma sent_snoc (method : Method) (url : string) (log : list Effect)
    (e : Effect) :
  sent method url (log ++ [e])
  = sent method url log + (if is_request method url e then 1 else 0).
Proof.
  unfold sent. rewrite List.filter_app, length_app. cbn.
  destruct (is_request method url e); reflexivity.
Qed.

Lemma is_request_get (url : string) (authorization : option string) :
  is_request GET url (Http GET url authorization NoBody) = true.
Proof. cbn. apply String.eqb_refl. Qed.

Lemma loadMembers_fulfilled `{Runtime} (branch : Branch.t)
    (fetched : list Member.t) (env : Env) (s : BranchCard.State) :
  BranchCard.loadMembers branch (Fulfilled fetched) env s =
  (Normal tt,
   {| localStorage := localStorage env;
      effects := effects env ++
        [Http GET (BranchCard.members_url branch) None NoBody] |},
   {| BranchCard.showMembers := true;
      BranchCard.showActivities := BranchCard.showActivities s;
      BranchCard.members := fetched;
      BranchCard.branchActivities := BranchCard.branchActivities s |}).
Proof. reflexivity. Qed.

Lemma loadMembers_rejected `{Runtime} (branch : Branch.t)
    (why : Failure) (env : Env) (s : BranchCard.State) :
  BranchCard.loadMembers branch (Rejected why) env s =
  (Normal tt,
   {| localStorage := localStorage env;
      effects :=
        (effects env ++
         [Http GET (BranchCard.members_url branch) None NoBody])
        ++ [ConsoleError "Erreur lors du chargement des membres:"
              (AxiosError why)] |},
   s).
Proof. reflexivity. Qed.

Lemma loadActivities_fulfilled `{Runtime} (branch : Branch.t)
    (fetched : list Activity.t) (env : Env) (s : BranchCard.State) :
  BranchCard.loadActivities branch (Fulfilled fetched) env s =
  (Normal tt,
   {| localStorage := localStorage env;
      effects := effects env ++
        [Http GET (BranchCard.activities_url branch) None NoBody] |},
   {| BranchCard.showMembers := BranchCard.showMembers s;
      BranchCard.showActivities := true;
      BranchCard.members := BranchCard.members s;
      BranchCard.branchActivities := fetched |}).
Proof. reflexivity. Qed.

Lemma loadActivities_rejected `{Runtime} (branch : Branch.t)
    (why : Failure) (env : Env) (s : BranchCard.State) :
  BranchCard.loadActivities branch (Rejected why) env s =
  (Normal tt,
   {| localStorage := localStorage env;
      effects :=
        (effects env ++
         [Http GET (BranchCard.activities_url branch) None NoBody])
        ++ [ConsoleError "Erreur lors du chargement des activités:"
              (AxiosError why)] |},
   s).
Proof. reflexivity. Qed.

(** One click on the members button: it completes, and exactly one more
    [GET] for the branch's members is in the log. *)
Lemma loadMembers_sends_one `{Runtime} (branch : Branch.t)
    (reply : Response (list Member.t)) (env : Env) (s : BranchCard.State) :
  let r := BranchCard.loadMembers branch reply env s in
  outcome r = Normal tt
  /\ sent GET (BranchCard.members_url branch) (effects (env_after r))
     = sent GET (BranchCard.members_url branch) (effects env) + 1.
Proof.
  destruct reply as [fetched|why].
  - rewrite loadMembers_fulfilled. cbv [outcome env_after]; cbn [fst snd effects].
    rewrite sent_snoc, is_request_get. auto.
  - rewrite loadMembers_rejected. cbv [outcome env_after]; cbn [fst snd effects].
    rewrite !sent_snoc, is_request_get. cbn [is_request]. split; [reflexivity|lia].
Qed.

Lemma loadActivities_sends_one `{Runtime} (branch : Branch.t)
    (reply : Response (list Activity.t)) (env : Env) (s : BranchCard.State) :
  let r := BranchCard.loadActivities branch reply env s in
  outcome r = Normal tt
  /\ sent GET (BranchCard.activities_url branch) (effects (env_after r))
     = sent GET (BranchCard.activities_url branch) (effects env) + 1.
Proof.
  destruct reply as [fetched|why].
  - rewrite loadActivities_fulfilled. cbv [outcome env_after]; cbn [fst snd effects].
    rewrite sent_snoc, is_request_get. auto.
  - rewrite loadActivities_rejected. cbv [outcome env_after]; cbn [fst snd effects].
    rewrite !sent_snoc, is_request_get. cbn [is_request]. split; [reflexivity|lia].
Qed.

Lemma click_members_sends `{Runtime} (branch : Branch.t)
    (replies : list (Response (list Member.t))) :
  forall (env : Env) (s : BranchCard.State),
    let r := BranchCard.click_members branch replies env s in
    outcome r = Normal tt
    /\ sent GET (BranchCard.members_url branch) (effects (env_after r))
       = sent GET (BranchCard.members_url branch) (effects env)
         + length replies.
Proof.
  induction replies as [|reply later IH]; intros env s; cbn.
  - cbv [outcome env_after act_ret]; cbn. split; [reflexivity|lia].
  - destruct (loadMembers_sends_one branch reply env s) as [Hok Hone].
    unfold act_bind.
    destruct (BranchCard.loadMembers branch reply env s) as [[[[]|e] env1] s1];
      [|discriminate Hok].
    destruct (IH env1 s1) as [Hok' Hmore].
    split; [exact Hok'|]. rewrite Hmore.
    cbv [env_after] in Hone; cbn in Hone. rewrite Hone. lia.
Qed.

Lemma click_activities_sends `{Runtime} (branch : Branch.t)
    (replies : list (Response (list Activity.t))) :
  forall (env : Env) (s : BranchCard.State),
    let r := BranchCard.click_activities branch replies env s in
    outcome r = Normal tt
    /\ sent GET (BranchCard.activities_url branch) (effects (env_after r))
       = sent GET (BranchCard.activities_url branch) (effects env)
         + length replies.
Proof.
  induction replies as [|reply later IH]; intros env s; cbn.
  - cbv [outcome env_after act_ret]; cbn. split; [reflexivity|lia].
  - destruct (loadActivities_sends_one branch reply env s) as [Hok Hone].
    unfold act_bind.
    destruct (BranchCard.loadActivities branch reply env s)
      as [[[[]|e] env1] s1]; [|discriminate Hok].
    destruct (IH env1 s1) as [Hok' Hmore].
    split; [exact Hok'|]. rewrite Hmore.
    cbv [env_after] in Hone; cbn in Hone. rewrite Hone. lia.
Qed.

(** C2: the code at the failing input.  On a fresh card of the [meute]
    branch, a first click on the members button, fulfilled, sends one
    request for the branch's members and shows the list, and the button
    now reads [Masquer les membres].  A second click, fulfilled, does not
    hide the list: it sends a second request for the same list, the list
    is still on screen and the button still reads [Masquer les membres]. *)
Lemma second_click_fetches_again :
  let meute := Branch.mk "meute" "Meute" "8-11 ans" "Louveteaux" in
  let url := BranchCard.members_url (H := local_runtime) meute in
  let once :=
    BranchCard.click_members (H := local_runtime) meute
      [Fulfilled [jean; paul]] no_env BranchCard.init in
  let twice :=
    BranchCard.click_members (H := local_runtime) meute
      [Fulfilled [jean; paul]; Fulfilled [jean; paul]]
      no_env BranchCard.init in
  sent GET url (effects (env_after once)) = 1
  /\ BranchCard.showMembers (state_after once) = true
  /\ BranchCard.members_button (BranchCard.render (state_after once))
     = "Masquer les membres"
  /\ sent GET url (effects (env_after twice)) = 2
  /\ BranchCard.showMembers (state_after twice) = true
  /\ BranchCard.members_button (BranchCard.render (state_after twice))
     = "Masquer les membres"
  /\ BranchCard.members_panel (BranchCard.render (state_after twice))
     = Some (Rows [jean; paul]).
Proof. repeat split; reflexivity. Qed.

(** ** The public view *)

Lemma shown_panel {A} (rows : list A) (placeholder : string) :
  shown (panel rows placeholder) = rows.
Proof.
  unfold panel. case_bool_decide as Hlen; [reflexivity|].
  destruct rows; [reflexivity|]. cbn in Hlen. lia.
Qed.

Lemma count_branch_members_of_branch (key : string) (fetched : list Member.t) :
  PublicHome.count_branch key fetched = members_of_branch key fetched.
Proof.
  unfold PublicHome.count_branch, members_of_branch.
  induction fetched as [|m fetched IH]; [reflexivity|].
  cbn [List.filter]. rewrite filter_cons.
  destruct (String.eqb_spec (Member.branch m) key) as [Heq|Hne].
  - rewrite decide_True by exact Heq. cbn. f_equal. exact IH.
  - rewrite decide_False by exact Hne. exact IH.
Qed.

Lemma or_zero_Some (n : nat) : or_zero (Some n) = n.
Proof. destruct n; reflexivity. Qed.

(** The state of the public view once the members were fetched, whatever
    becomes of the two later requests. *)
Lemma loadData_counts `{Runtime}
    (fetched_branches : BranchesData) (fetched : list Member.t)
    (projectReply : Response Project.t)
    (activitiesReply : Response (list Activity.t))
    (env : Env) (s : PublicHome.State) :
  let s' := state_after
              (PublicHome.loadData (Fulfilled fetched_branches)
                 (Fulfilled fetched) projectReply activitiesReply env s) in
  PublicHome.branches s' = data_branches fetched_branches
  /\ PublicHome.memberCounts s' =
     <["meute" := PublicHome.count_branch "meute" fetched]>
     (<["troupe" := PublicHome.count_branch "troupe" fetched]>
     (<["compagnie" := PublicHome.count_branch "compagnie" fetched]>
     (<["clan" := PublicHome.count_branch "clan" fetched]> ∅))).
Proof.
  destruct projectReply, activitiesReply; split; reflexivity.
Qed.

(** C5.  Once the member list is fetched, every branch card the public
    view shows for one of the four branch keys displays, as its member
    count, the number of members of the fetched list whose branch field
    equals that key. *)
Theorem displayed_member_count `{Runtime}
    (fetched_branches : BranchesData) (fetched : list Member.t)
    (projectReply : Response Project.t)
    (activitiesReply : Response (list Activity.t))
    (env : Env) (s : PublicHome.State) (card : PublicHome.BranchCardProps) :
  let s' := state_after
              (PublicHome.loadData (Fulfilled fetched_branches)
                 (Fulfilled fetched) projectReply activitiesReply env s) in
  card ∈ PublicHome.branch_cards (PublicHome.render s') ->
  Branch.type (PublicHome.branch card) ∈ branch_keys ->
  PublicHome.memberCount card
  = members_of_branch (Branch.type (PublicHome.branch card)) fetched.
Proof.
  intros s' Hcard Hkey.
  destruct (loadData_counts fetched_branches fetched projectReply
              activitiesReply env s) as [_ Hcounts].
  fold s' in Hcounts.
  cbn [PublicHome.render PublicHome.branch_cards] in Hcard.
  apply list_elem_of_fmap in Hcard as (b & -> & _).
  cbn [PublicHome.branch PublicHome.memberCount] in *.
  rewrite Hcounts, <- count_branch_members_of_branch.
  unfold branch_keys in Hkey.
  repeat (apply elem_of_cons in Hkey as [->|Hkey]);
    [ | | | | apply elem_of_nil in Hkey; contradiction ];
    simplify_map_eq; apply or_zero_Some.
Qed.

(** C9.  Once the activity list is fetched, the recent-activities section
    of the public view shows the first five entries of the list, in the
    order of the list and with nothing else: for [i < 5], entry [i] of the
    section shows the identifier, title, description, date and branch of
    entry [i] of the list (the date in the French format, the branch with
    its first letter in upper case, and no branch when the activity has
    none); there is no entry from 5 on; a shorter list is shown whole. *)
Theorem recent_activities_are_first_five `{Runtime}
    (fetched_branches : BranchesData) (fetched_members : list Member.t)
    (fetched_project : Project.t) (fetched : list Activity.t)
    (env : Env) (s : PublicHome.State) :
  let s' := state_after
              (PublicHome.loadData (Fulfilled fetched_branches)
                 (Fulfilled fetched_members) (Fulfilled fetched_project)
                 (Fulfilled fetched) env s) in
  let section := shown (PublicHome.recent_activities (PublicHome.render s')) in
  PublicHome.recentActivities s' = take 5 fetched
  /\ section = map PublicHome.activity_item (take 5 fetched)
  /\ length section = min 5 (length fetched)
  /\ (forall i : nat,
        section !! i =
        if bool_decide (i < 5)
        then PublicHome.activity_item <$> fetched !! i
        else None)
  /\ forall (i : nat) (activity : Activity.t),
       i < 5 ->
       fetched !! i = Some activity ->
       section !! i =
       Some {| PublicHome.item_key := Activity.id activity;
               PublicHome.item_titre := Activity.titre activity;
               PublicHome.item_description := Activity.description activity;
               PublicHome.item_date :=
                 Date_toLocaleDateString (Activity.date_activite activity);
               PublicHome.item_badge :=
                 match Activity.branch activity with
                 | Some branch =>
                     if String.eqb branch "" then None
                     else Some (toUpperCase (String_charAt 0 branch)
                                ++ String_slice 1 branch)
                 | None => None
                 end |}.
Proof.
  intros s' section.
  assert (Hstate : PublicHome.recentActivities s' = take 5 fetched)
    by reflexivity.
  assert (Hsection : section = map PublicHome.activity_item (take 5 fetched)).
  { unfold section. cbn [PublicHome.render PublicHome.recent_activities].
    rewrite shown_panel, Hstate. reflexivity. }
  assert (Hlookup : forall i : nat,
            section !! i =
            if bool_decide (i < 5)
            then PublicHome.activity_item <$> fetched !! i
            else None).
  { intros i. rewrite Hsection, list_lookup_fmap. case_bool_decide as Hi.
    - rewrite lookup_take_lt by exact Hi. reflexivity.
    - rewrite lookup_take_ge by lia. reflexivity. }
  split; [exact Hstate|]. split; [exact Hsection|].
  split; [rewrite Hsection, length_map, length_take; reflexivity|].
  split; [exact Hlookup|].
  intros i activity Hi Hfetched.
  rewrite Hlookup, bool_decide_true, Hfetched by exact Hi.
  cbn [fmap option_fmap option_map]. f_equal.
  unfold PublicHome.activity_item, PublicHome.capitalize. f_equal.
  destruct (Activity.branch activity) as [branch|]; [|reflexivity].
  cbn. destruct (String.eqb branch ""); reflexivity.
Qed.

(** Seven camps are fetched: the fifth entry of the section is the fifth
    camp, with its branch shown as [Meute], and there is no sixth. *)
Lemma first_five_of_seven_camps :
  let section :=
    shown
      (PublicHome.recent_activities
         (PublicHome.render (H := local_runtime)
            (state_after
               (PublicHome.loadData (H := local_runtime)
                  (Fulfilled fetched_branches) (Fulfilled [jean; lea; paul])
                  (Fulfilled (Project.mk "X" two_lines))
                  (Fulfilled seven_camps) no_env PublicHome.init)))) in
  4 < 5
  /\ seven_camps !! 4 = Some (camp "5")
  /\ section !! 4 =
     Some {| PublicHome.item_key := "5";
             PublicHome.item_titre := "Camp 5";
             PublicHome.item_description := "Sortie";
             PublicHome.item_date := "2024-07-01";
             PublicHome.item_badge := Some "Meute" |}
  /\ section !! 5 = None.
Proof.
  intros section.
  assert (Hi : 4 < 5) by (do 1 constructor).
  assert (Hfetched : seven_camps !! 4 = Some (camp "5")) by reflexivity.
  destruct (recent_activities_are_first_five (H := local_runtime)
              fetched_branches [jean; lea; paul] (Project.mk "X" two_lines)
              seven_camps no_env PublicHome.init)
    as (_ & _ & _ & Hlookup & Hshown).
  split; [exact Hi|]. split; [exact Hfetched|].
  split; [exact (Hshown 4 (camp "5") Hi Hfetched)|exact (Hlookup 5)].
Defined.

(** ** Splitting the project text into paragraphs *)

Lemma split_nonempty (c : Ascii.ascii) (s : string) : split c s <> [].
Proof.
  destruct s as [|c' rest]; cbn; [discriminate|].
  destruct (Ascii.eqb c' c); [discriminate|].
  destruct (split c rest); discriminate.
Qed.

Lemma join_cons (separator first : string) (others : list string) :
  others <> [] ->
  join separator (first :: others)
  = first ++ separator ++ join separator others.
Proof. destruct others; [contradiction|reflexivity]. Qed.

(** Joining the segments with the separator gives the text back. *)
Lemma join_split (c : Ascii.ascii) (s : string) :
  join (String c "") (split c s) = s.
Proof.
  induction s as [|c' rest IH]; [reflexivity|].
  cbn [split]. destruct (Ascii.eqb_spec c' c) as [->|Hne].
  - rewrite join_cons by apply split_nonempty. rewrite IH. reflexivity.
  - pose proof (split_nonempty c rest) as Hnonempty.
    destruct (split c rest) as [|first others]; [contradiction|].
    destruct others as [|second others].
    + cbn in *. rewrite IH. reflexivity.
    + rewrite join_cons by discriminate.
      rewrite join_cons in IH by discriminate.
      rewrite <- IH. reflexivity.
Qed.

(** No segment contains the separator. *)
Lemma split_free (c : Ascii.ascii) (s : string) :
  Forall (fun segment => occurs c segment = false) (split c s).
Proof.
  induction s as [|c' rest IH]; [repeat constructor|].
  cbn [split]. destruct (Ascii.eqb_spec c' c) as [->|Hne].
  - constructor; [reflexivity|exact IH].
  - destruct (split c rest) as [|first others]; [repeat constructor|].
    + cbn. apply Ascii.eqb_neq in Hne. rewrite Hne. reflexivity.
    + inversion IH as [|? ? Hfirst Hothers]; subst.
      constructor; [|exact Hothers].
      cbn. apply Ascii.eqb_neq in Hne. rewrite Hne. exact Hfirst.
Qed.

(** One more segment than separators. *)
Lemma length_split (c : Ascii.ascii) (s : string) :
  length (split c s) = S (occurrences c s).
Proof.
  induction s as [|c' rest IH]; [reflexivity|].
  cbn [split occurrences]. destruct (Ascii.eqb c' c); cbn.
  - f_equal. exact IH.
  - pose proof (split_nonempty c rest) as Hnonempty.
    destruct (split c rest); [contradiction|]. exact IH.
Qed.

(** The split is the only way to cut the text at its separators: any
    non-empty list of separator-free segments that joins to [s] is
    [split c s]. *)
Lemma split_unique (c : Ascii.ascii) (segments : list string) :
  forall s : string,
    segments <> [] ->
    Forall (fun segment => occurs c segment = false) segments ->
    join (String c "") segments = s ->
    segments = split c s.
Proof.
  induction segments as [|first others IH]; [contradiction|].
  intros s _ Hfree <-.
  inversion Hfree as [|? ? Hfirst Hothers]; subst.
  destruct others as [|second others].
  - clear IH Hothers Hfree. cbn [join].
    induction first as [|c' first IH]; [reflexivity|].
    cbn in Hfirst. apply orb_false_iff in Hfirst as [Hc Hrest].
    cbn [split]. rewrite Hc, <- (IH Hrest). reflexivity.
  - rewrite join_cons by discriminate.
    specialize (IH _ ltac:(discriminate) Hothers eq_refl).
    clear Hfree Hothers. revert IH.
    generalize (join (String c "") (second :: others)) as tail.
    intros tail IH.
    induction first as [|c' first IHfirst].
    + change ("" ++ String c "" ++ tail) with (String c tail).
      cbn [split]. rewrite Ascii.eqb_refl, <- IH. reflexivity.
    + cbn in Hfirst. apply orb_false_iff in Hfirst as [Hc Hrest].
      change (String c' first ++ String c "" ++ tail)
        with (String c' (first ++ String c "" ++ tail)).
      cbn [split]. rewrite Hc, <- (IHfirst Hrest). reflexivity.
Qed.

Lemma paragraphs_text (segments : list string) :
  map PublicHome.text
    (imap (fun index paragraph =>
             {| PublicHome.index := index; PublicHome.text := paragraph |})
          segments)
  = segments.
Proof.
  change (map PublicHome.text) with (fmap (M := list) PublicHome.text).
  rewrite fmap_imap.
  rewrite (imap_ext _ (const id)) by reflexivity.
  rewrite imap_const. apply list_fmap_id.
Qed.

Lemma paragraphs_index (segments : list string) :
  map PublicHome.index
    (imap (fun index paragraph =>
             {| PublicHome.index := index; PublicHome.text := paragraph |})
          segments)
  = seq 0 (length segments).
Proof.
  change (map PublicHome.index) with (fmap (M := list) PublicHome.index).
  rewrite fmap_imap.
  rewrite (imap_ext _ (fun j _ => id j)) by reflexivity.
  rewrite imap_seq_0. apply list_fmap_id.
Qed.

(** The public view once the project was fetched, whatever becomes of the
    activities request. *)
Lemma loadData_project `{Runtime}
    (fetched_branches : BranchesData) (fetched_members : list Member.t)
    (fetched : Project.t) (activitiesReply : Response (list Activity.t))
    (env : Env) (s : PublicHome.State) :
  PublicHome.project
    (state_after
       (PublicHome.loadData (Fulfilled fetched_branches)
          (Fulfilled fetched_members) (Fulfilled fetched) activitiesReply
          env s))
  = Some fetched.
Proof. destruct activitiesReply; reflexivity. Qed.

Lemma project_handleSubmit_sends_form `{Runtime}
    (refreshReply : Response Project.t)
    (env : Env) (s : ProjectManagement.State) (d : AdminDashboard.State) :
  head
    (new_effects env
       (ProjectManagement.handleSubmit (AdminDashboard.loadProject refreshReply)
          (Fulfilled tt) env (s, d)))
  = Some (Http PUT (API ++ "/admin/project")
            (Some ("Bearer " ++ template (localStorage env !! "adminToken")))
            (ProjectBody (ProjectManagement.formData s))).
Proof.
  destruct refreshReply;
    (erewrite new_effects_app
       by (cbv [env_after]; cbn; rewrite <- ?app_assoc; reflexivity));
    reflexivity.
Qed.

(** C6.  The project form is submitted with its [titre] and [contenu] in a
    [PUT /admin/project]; when the backend then serves the project it was
    sent, the public view that loads it shows the title and one paragraph
    per newline-separated segment of [contenu], in order: the paragraphs,
    keyed 0, 1, ..., are the segments [contenu] splits into at its
    newlines, none contains a newline, joined by newlines they give
    [contenu] back, and there is one more of them than there are
    newlines. *)
Theorem project_round_trip `{Runtime}
    (form : ProjectForm) (stored : Project.t)
    (refreshReply : Response Project.t)
    (fetched_branches : BranchesData) (fetched_members : list Member.t)
    (activitiesReply : Response (list Activity.t))
    (env env' : Env) (pm : ProjectManagement.State)
    (d : AdminDashboard.State) (home : PublicHome.State) :
  ProjectManagement.formData pm = form ->
  Project.titre stored = pf_titre form ->
  Project.contenu stored = pf_contenu form ->
  let submitted :=
    ProjectManagement.handleSubmit (AdminDashboard.loadProject refreshReply)
      (Fulfilled tt) env (pm, d) in
  let reloaded :=
    state_after
      (PublicHome.loadData (Fulfilled fetched_branches)
         (Fulfilled fetched_members) (Fulfilled stored) activitiesReply
         env' home) in
  head (new_effects env submitted)
  = Some (Http PUT (API ++ "/admin/project")
            (Some ("Bearer " ++ template (localStorage env !! "adminToken")))
            (ProjectBody form))
  /\ exists section : PublicHome.ProjectSection,
       PublicHome.project_section (PublicHome.render reloaded) = Some section
       /\ PublicHome.heading section = pf_titre form
       /\ map PublicHome.text (PublicHome.paragraphs section)
          = split newline (pf_contenu form)
       /\ map PublicHome.index (PublicHome.paragraphs section)
          = seq 0 (length (split newline (pf_contenu form)))
       /\ join (String newline "")
               (map PublicHome.text (PublicHome.paragraphs section))
          = pf_contenu form
       /\ Forall (fun paragraph => occurs newline paragraph = false)
                 (map PublicHome.text (PublicHome.paragraphs section))
       /\ length (PublicHome.paragraphs section)
          = S (occurrences newline (pf_contenu form)).
Proof.
  intros <- Htitre Hcontenu submitted reloaded.
  split; [apply project_handleSubmit_sends_form|].
  pose proof (loadData_project fetched_branches fetched_members stored
                activitiesReply env' home) as Hproject.
  fold reloaded in Hproject.
  unfold PublicHome.render. rewrite Hproject, Htitre, Hcontenu.
  eexists; split; [reflexivity|].
  cbn [PublicHome.heading PublicHome.paragraphs].
  rewrite paragraphs_text, paragraphs_index, join_split, length_imap,
    length_split.
  repeat split; try reflexivity. apply split_free.
Qed.

(** ** Concrete runs *)

Lemma admin_page_reachable : Page.reachable (H := local_runtime) ∅ admin_page.
Proof.
  apply (Page.reachable_step (H := local_runtime) ∅ login_page
           (Page.SubmitLogin (Fulfilled {| access_token := "t" |})) admin_page).
  - apply (Page.reachable_step (H := local_runtime) ∅ (Page.init ∅)
             Page.ClickAdmin login_page).
    + apply Page.reachable_init.
    + reflexivity.
  - reflexivity.
Defined.

(** After a login on an empty [localStorage] the page is reachable, the
    view is [admin], the flag is set and the dashboard is on screen. *)
Lemma dashboard_on_screen_after_login :
  Page.reachable (H := local_runtime) ∅ admin_page
  /\ ((App.shows_dashboard (Page.app admin_page) = true
       <-> App.view (Page.app admin_page) = App.admin
           /\ App.isAuthenticated (Page.app admin_page) = true)
      /\ (App.isAuthenticated (Page.app admin_page) = false ->
          App.shows_dashboard (Page.app admin_page) = false)).
Proof.
  split; [exact admin_page_reachable|].
  apply (dashboard_only_when_admin_and_authenticated (H := local_runtime)
           ∅ admin_page).
  exact admin_page_reachable.
Defined.

(** A login rejected with status 401 on a fresh login view. *)
Lemma rejected_login_on_fresh_view :
  App.isAuthenticated (App.init ∅) = false
  /\ (let r := AdminLogin.handleLogin (H := local_runtime) App.handleLogin
                 (Rejected (BadStatus 401)) no_env
                 (AdminLogin.init, App.init ∅) in
      AdminLogin.phase (state_after r).1 = AdminLogin.failed
      /\ AdminLogin.banner (AdminLogin.render (state_after r).1)
         = Some "Nom d'utilisateur ou mot de passe incorrect"
      /\ AdminLogin.submit_disabled (AdminLogin.render (state_after r).1)
         = false
      /\ App.isAuthenticated (state_after r).2 = false
      /\ (state_after r).2 = App.init ∅
      /\ localStorage (env_after r) = localStorage no_env).
Proof.
  split; [reflexivity|].
  apply (rejected_login_shows_fixed_error (H := local_runtime)
           (BadStatus 401) no_env AdminLogin.init (App.init ∅)).
  reflexivity.
Defined.

(** Jean and Paul are in the meute, Léa is not: the meute card shows 2. *)
Lemma meute_card_counts_two :
  let s' := state_after
              (PublicHome.loadData (H := local_runtime)
                 (Fulfilled fetched_branches) (Fulfilled [jean; lea; paul])
                 (Rejected NetworkError) (Rejected NetworkError)
                 no_env PublicHome.init) in
  meute_card ∈ PublicHome.branch_cards (PublicHome.render (H := local_runtime) s')
  /\ Branch.type (PublicHome.branch meute_card) ∈ branch_keys
  /\ PublicHome.memberCount meute_card
     = members_of_branch "meute" [jean; lea; paul].
Proof.
  assert (Hcard :
    meute_card ∈
      PublicHome.branch_cards
        (PublicHome.render (H := local_runtime)
           (state_after
              (PublicHome.loadData (H := local_runtime)
                 (Fulfilled fetched_branches) (Fulfilled [jean; lea; paul])
                 (Rejected NetworkError) (Rejected NetworkError)
                 no_env PublicHome.init))))
    by apply list_elem_of_here.
  assert (Hkey : Branch.type (PublicHome.branch meute_card) ∈ branch_keys)
    by apply list_elem_of_here.
  split; [exact Hcard|]. split; [exact Hkey|].
  exact (displayed_member_count (H := local_runtime)
           fetched_branches [jean; lea; paul]
           (Rejected NetworkError) (Rejected NetworkError)
           no_env PublicHome.init meute_card Hcard Hkey).
Defined.

(** The form [{titre: X, contenu: A newline B}] comes back as the two
    paragraphs [A] and [B], in this order. *)
Lemma two_lines_two_paragraphs :
  let pm := {| ProjectManagement.formData := project_form;
               ProjectManagement.loading := false |} in
  let stored := Project.mk "X" two_lines in
  let reloaded :=
    state_after
      (PublicHome.loadData (H := local_runtime)
         (Fulfilled fetched_branches) (Fulfilled [jean; lea; paul])
         (Fulfilled stored) (Fulfilled seven_camps) no_env PublicHome.init) in
  ProjectManagement.formData pm = project_form
  /\ Project.titre stored = pf_titre project_form
  /\ Project.contenu stored = pf_contenu project_form
  /\ exists section : PublicHome.ProjectSection,
       PublicHome.project_section (PublicHome.render (H := local_runtime) reloaded)
       = Some section
       /\ map PublicHome.text (PublicHome.paragraphs section) = ["A"; "B"].
Proof.
  intros pm stored reloaded.
  repeat (split; [reflexivity|]).
  destruct (project_round_trip (H := local_runtime) project_form stored
              (Fulfilled stored) fetched_branches [jean; lea; paul]
              (Fulfilled seven_camps) no_env no_env pm AdminDashboard.init
              PublicHome.init eq_refl eq_refl eq_refl)
    as (_ & section & Hsection & _ & Htext & _).
  exists section. split; [exact Hsection|exact Htext].
Defined.


(** * Further properties of the components *)

(** ** [PublicHome.loadData]: one [try] around four awaits *)

Ltac added_effects :=
  erewrite new_effects_app
    by (cbv [env_after]; cbn; rewrite <- ?app_assoc; reflexivity).

(** X1.  [loadData] awaits its four requests one after the other inside
    one [try]: the first rejected one is logged and ends the load.  With
    [/branches] rejected nothing else is requested and the state is
    unchanged; with [/members] rejected the branches and organs are stored
    and neither the project nor the activities are requested; with
    [/project] rejected the activities are not requested and the recent
    activities stay as they were; with [/activities] rejected the project
    is stored and the recent activities stay as they were; with the four
    fulfilled the four requests are sent and nothing is logged.  Whatever
    the four replies, the load itself completes normally and leaves
    [localStorage] as it was. *)
Theorem loadData_stops_at_first_rejection `{Runtime}
    (why : Failure) (fetched_branches : BranchesData)
    (fetched : list Member.t) (fetched_project : Project.t)
    (fetched_activities : list Activity.t)
    (branchesReply : Response BranchesData)
    (membersReply : Response (list Member.t))
    (projectReply : Response Project.t)
    (activitiesReply : Response (list Activity.t))
    (env : Env) (s : PublicHome.State) :
  (let r := PublicHome.loadData branchesReply membersReply projectReply
              activitiesReply env s in
   outcome r = Normal tt
   /\ localStorage (env_after r) = localStorage env)
  /\ (let r := PublicHome.loadData (Rejected why) membersReply projectReply
                 activitiesReply env s in
      state_after r = s
      /\ new_effects env r
         = [Http GET (API ++ "/branches") None NoBody;
            ConsoleError "Erreur lors du chargement des données:"
              (AxiosError why)])
  /\ (let r := PublicHome.loadData (Fulfilled fetched_branches)
                 (Rejected why) projectReply activitiesReply env s in
      state_after r
      = {| PublicHome.branches := data_branches fetched_branches;
           PublicHome.organs := data_organs fetched_branches;
           PublicHome.memberCounts := PublicHome.memberCounts s;
           PublicHome.project := PublicHome.project s;
           PublicHome.recentActivities := PublicHome.recentActivities s |}
      /\ new_effects env r
         = [Http GET (API ++ "/branches") None NoBody;
            Http GET (API ++ "/members") None NoBody;
            ConsoleError "Erreur lors du chargement des données:"
              (AxiosError why)])
  /\ (let r := PublicHome.loadData (Fulfilled fetched_branches)
                 (Fulfilled fetched) (Rejected why) activitiesReply env s in
      PublicHome.project (state_after r) = PublicHome.project s
      /\ PublicHome.recentActivities (state_after r)
         = PublicHome.recentActivities s
      /\ new_effects env r
         = [Http GET (API ++ "/branches") None NoBody;
            Http GET (API ++ "/members") None NoBody;
            Http GET (API ++ "/project") None NoBody;
            ConsoleError "Erreur lors du chargement des données:"
              (AxiosError why)])
  /\ (let r := PublicHome.loadData (Fulfilled fetched_branches)
                 (Fulfilled fetched) (Fulfilled fetched_project)
                 (Rejected why) env s in
      PublicHome.project (state_after r) = Some fetched_project
      /\ PublicHome.recentActivities (state_after r)
         = PublicHome.recentActivities s
      /\ new_effects env r
         = [Http GET (API ++ "/branches") None NoBody;
            Http GET (API ++ "/members") None NoBody;
            Http GET (API ++ "/project") None NoBody;
            Http GET (API ++ "/activities") None NoBody;
            ConsoleError "Erreur lors du chargement des données:"
              (AxiosError why)])
  /\ (let r := PublicHome.loadData (Fulfilled fetched_branches)
                 (Fulfilled fetched) (Fulfilled fetched_project)
                 (Fulfilled fetched_activities) env s in
      new_effects env r
      = [Http GET (API ++ "/branches") None NoBody;
         Http GET (API ++ "/members") None NoBody;
         Http GET (API ++ "/project") None NoBody;
         Http GET (API ++ "/activities") None NoBody]).
Proof.
  split.
  { destruct branchesReply, membersReply, projectReply, activitiesReply;
      split; reflexivity. }
  repeat split; try reflexivity; cbv zeta; added_effects; reflexivity.
Qed.

Lemma count_branch_cons (key : string) (m : Member.t) (ms : list Member.t) :
  PublicHome.count_branch key (m :: ms)
  = (if String.eqb (Member.branch m) key then 1 else 0)
    + PublicHome.count_branch key ms.
Proof.
  unfold PublicHome.count_branch. cbn [List.filter].
  destruct (String.eqb (Member.branch m) key); reflexivity.
Qed.

Lemma counts_partition (ms : list Member.t) :
  PublicHome.count_branch "meute" ms + PublicHome.count_branch "troupe" ms
  + PublicHome.count_branch "compagnie" ms + PublicHome.count_branch "clan" ms
  = length (filter (fun m => Member.branch m ∈ branch_keys) ms).
Proof.
  induction ms as [|m ms IH]; [reflexivity|].
  rewrite !count_branch_cons, filter_cons.
  destruct (decide (Member.branch m ∈ branch_keys)) as [Hin|Hout].
  - cbn [length]. rewrite <- IH. unfold branch_keys in Hin.
    repeat (apply elem_of_cons in Hin as [->|Hin]);
      [ | | | | apply elem_of_nil in Hin; contradiction ];
      cbn; lia.
  - rewrite <- IH.
    assert (Hne : forall key, key ∈ branch_keys ->
                  String.eqb (Member.branch m) key = false).
    { intros key Hkey. apply String.eqb_neq. intros Heq. subst key.
      contradiction. }
    rewrite !Hne by (unfold branch_keys; set_solver). lia.
Qed.

(** X2.  The four counts the public view stores add up to the number of
    fetched members whose branch is one of the four keys: a member with
    any other branch value is counted in no card, and no member is
    counted twice. *)
Theorem member_counts_partition `{Runtime}
    (fetched_branches : BranchesData) (fetched : list Member.t)
    (projectReply : Response Project.t)
    (activitiesReply : Response (list Activity.t))
    (env : Env) (s : PublicHome.State) :
  let counts :=
    PublicHome.memberCounts
      (state_after
         (PublicHome.loadData (Fulfilled fetched_branches) (Fulfilled fetched)
            projectReply activitiesReply env s)) in
  or_zero (counts !! "meute") + or_zero (counts !! "troupe")
  + or_zero (counts !! "compagnie") + or_zero (counts !! "clan")
  = length (filter (fun m => Member.branch m ∈ branch_keys) fetched)
  /\ length (filter (fun m => Member.branch m ∈ branch_keys) fetched)
     <= length fetched.
Proof.
  intros counts.
  destruct (loadData_counts fetched_branches fetched projectReply
              activitiesReply env s) as [_ Hcounts].
  fold counts in Hcounts. rewrite Hcounts.
  split; [|apply length_filter].
  rewrite <- counts_partition.
  rewrite lookup_insert_eq.
  rewrite lookup_insert_ne, lookup_insert_eq by discriminate.
  rewrite !lookup_insert_ne, lookup_insert_eq by discriminate.
  rewrite !lookup_insert_ne, lookup_insert_eq by discriminate.
  rewrite !or_zero_Some. reflexivity.
Qed.

(** X3.  Once the activities are fetched, the recent-activities section
    shows its placeholder sentence exactly when the backend returned an
    empty list. *)
Theorem recent_placeholder_iff_empty `{Runtime}
    (fetched_branches : BranchesData) (fetched_members : list Member.t)
    (fetched_project : Project.t) (fetched : list Activity.t)
    (env : Env) (s : PublicHome.State) :
  let s' := state_after
              (PublicHome.loadData (Fulfilled fetched_branches)
                 (Fulfilled fetched_members) (Fulfilled fetched_project)
                 (Fulfilled fetched) env s) in
  PublicHome.recent_activities (PublicHome.render s')
  = Placeholder "Aucune activité récente"
  <-> fetched = [].
Proof.
  intros s'.
  change (PublicHome.recent_activities (PublicHome.render s'))
    with (panel (map PublicHome.activity_item (take 5 fetched))
            "Aucune activité récente").
  destruct fetched as [|a rest]; [split; reflexivity|].
  split; [|discriminate]. unfold panel. cbn. discriminate.
Qed.

(** ** [BranchCard]: any sequence of clicks *)

Lemma click_step `{Runtime} (branch : Branch.t) (c : BranchCard.Click)
    (env : Env) (s : BranchCard.State) :
  let r := BranchCard.click branch c env s in
  outcome r = Normal tt
  /\ localStorage (env_after r) = localStorage env
  /\ BranchCard.showMembers (state_after r)
     = BranchCard.showMembers s || BranchCard.fulfilled_members c
  /\ BranchCard.showActivities (state_after r)
     = BranchCard.showActivities s || BranchCard.fulfilled_activities c
  /\ BranchCard.members (state_after r)
     = BranchCard.last_members [c] (BranchCard.members s)
  /\ BranchCard.branchActivities (state_after r)
     = BranchCard.last_activities [c] (BranchCard.branchActivities s).
Proof.
  destruct c as [[fetched|why]|[fetched|why]]; cbn [BranchCard.click];
    rewrite ?loadMembers_fulfilled, ?loadMembers_rejected,
      ?loadActivities_fulfilled, ?loadActivities_rejected;
    cbv [outcome env_after state_after]; cbn;
    rewrite ?orb_true_r, ?orb_false_r; repeat split; auto.
Qed.

(** What a sequence of clicks does to the card. *)
Lemma clicks_effect `{Runtime} (branch : Branch.t)
    (cs : list BranchCard.Click) :
  forall (env : Env) (s : BranchCard.State),
    let r := BranchCard.clicks branch cs env s in
    outcome r = Normal tt
    /\ localStorage (env_after r) = localStorage env
    /\ BranchCard.showMembers (state_after r)
       = BranchCard.showMembers s || existsb BranchCard.fulfilled_members cs
    /\ BranchCard.showActivities (state_after r)
       = BranchCard.showActivities s
         || existsb BranchCard.fulfilled_activities cs
    /\ BranchCard.members (state_after r)
       = BranchCard.last_members cs (BranchCard.members s)
    /\ BranchCard.branchActivities (state_after r)
       = BranchCard.last_activities cs (BranchCard.branchActivities s).
Proof.
  induction cs as [|c later IH]; intros env s.
  - cbv [outcome env_after state_after]; cbn.
    rewrite !orb_false_r. repeat split; auto.
  - pose proof (click_step branch c env s) as Hstep.
    cbn [BranchCard.clicks]. unfold act_bind.
    destruct (BranchCard.click branch c env s) as [[[[]|e] env1] s1];
      cbv [outcome env_after state_after] in Hstep; cbn in Hstep;
      destruct Hstep as (Hok & Hstore & Hm & Ha & Hms & Has);
      [|discriminate Hok].
    destruct (IH env1 s1) as (Hok' & Hstore' & Hm' & Ha' & Hms' & Has').
    rewrite Hm, Ha, Hms, Has, Hstore in *.
    cbn [existsb]. rewrite !orb_assoc.
    repeat split; try assumption.
    + rewrite Hms'. destruct c as [[]|[]]; reflexivity.
    + rewrite Has'. destruct c as [[]|[]]; reflexivity.
Qed.

(** Each loader is its two halves, one after the other. *)
Lemma loadMembers_halves `{Runtime} (branch : Branch.t)
    (reply : Response (list Member.t)) (env : Env) (s : BranchCard.State) :
  BranchCard.loadMembers branch reply env s
  = (BranchCard.loadMembers_send branch ;;
     BranchCard.loadMembers_settle reply) env s.
Proof. destruct reply; reflexivity. Qed.

Lemma loadActivities_halves `{Runtime} (branch : Branch.t)
    (reply : Response (list Activity.t)) (env : Env) (s : BranchCard.State) :
  BranchCard.loadActivities branch reply env s
  = (BranchCard.loadActivities_send branch ;;
     BranchCard.loadActivities_settle reply) env s.
Proof. destruct reply; reflexivity. Qed.

Lemma append_cancel (prefix a b : string) :
  prefix ++ a = prefix ++ b -> a = b.
Proof.
  induction prefix as [|c prefix IH]; [auto|].
  intros Heq. apply IH.
  change (String c (prefix ++ a) = String c (prefix ++ b)) in Heq.
  congruence.
Qed.

(** The two lists of a branch have different addresses. *)
Lemma branch_urls_differ `{Runtime} (branch : Branch.t) :
  BranchCard.members_url branch <> BranchCard.activities_url branch.
Proof.
  unfold BranchCard.members_url, BranchCard.activities_url.
  intros Heq. apply append_cancel in Heq. discriminate.
Qed.

(** What one step does to the card and to the log. *)
Lemma step_effect `{Runtime} (branch : Branch.t) (st : BranchCard.Step)
    (env env' : Env) (f f' : BranchCard.InFlight) :
  BranchCard.step branch st env f = Some (env', f') ->
  localStorage env' = localStorage env
  /\ BranchCard.showMembers (BranchCard.card f')
     = BranchCard.showMembers (BranchCard.card f)
       || BranchCard.members_arrived st
  /\ BranchCard.showActivities (BranchCard.card f')
     = BranchCard.showActivities (BranchCard.card f)
       || BranchCard.activities_arrived st
  /\ BranchCard.members (BranchCard.card f')
     = BranchCard.last_arrived_members [st]
         (BranchCard.members (BranchCard.card f))
  /\ BranchCard.branchActivities (BranchCard.card f')
     = BranchCard.last_arrived_activities [st]
         (BranchCard.branchActivities (BranchCard.card f))
  /\ sent GET (BranchCard.members_url branch) (effects env')
     = sent GET (BranchCard.members_url branch) (effects env)
       + (if BranchCard.is_members_click st then 1 else 0)
  /\ sent GET (BranchCard.activities_url branch) (effects env')
     = sent GET (BranchCard.activities_url branch) (effects env)
       + (if BranchCard.is_activities_click st then 1 else 0).
Proof.
  intros Hstep.
  pose proof (branch_urls_differ branch) as Hurls.
  assert (Hma : String.eqb (BranchCard.members_url branch)
                  (BranchCard.activities_url branch) = false)
    by (apply String.eqb_neq; exact Hurls).
  assert (Ham : String.eqb (BranchCard.activities_url branch)
                  (BranchCard.members_url branch) = false)
    by (apply String.eqb_neq; congruence).
  destruct f as [s pm pa].
  destruct st as [|[fetched|why]| |[fetched|why]];
    cbn [BranchCard.step BranchCard.card BranchCard.awaiting_members
         BranchCard.awaiting_activities] in Hstep;
    try (destruct pm as [|pm]; [discriminate|]);
    try (destruct pa as [|pa]; [discriminate|]);
    injection Hstep as <- <-;
    cbn [BranchCard.card effects localStorage fst snd];
    rewrite ?sent_snoc; cbn [is_request];
    rewrite ?String.eqb_refl, ?Hma, ?Ham, ?orb_true_r, ?orb_false_r;
    cbn [BranchCard.is_members_click BranchCard.is_activities_click];
    repeat split; try reflexivity; try lia.
Qed.

(** X4.  On a branch card, clicks and replies can interleave in any way (the buttons stay
    enabled while a request is awaited, and replies need not arrive in
    the order of the clicks).  After any such run: every click has sent
    one request for its list; a list is visible exactly if it was visible
    before or a fulfilled reply for it has arrived; and the list held is
    the one of the last fulfilled reply to arrive, which need not be the
    reply to the last click (the previous list when none arrived).  A
    rejected reply keeps the earlier list, replies for one list never
    change the other, and [localStorage] is not written. *)
Theorem replies_show_last_arrived `{Runtime} (branch : Branch.t)
    (sts : list BranchCard.Step) :
  forall (env env' : Env) (f f' : BranchCard.InFlight),
    BranchCard.steps branch sts env f = Some (env', f') ->
    localStorage env' = localStorage env
    /\ BranchCard.showMembers (BranchCard.card f')
       = BranchCard.showMembers (BranchCard.card f)
         || existsb BranchCard.members_arrived sts
    /\ BranchCard.showActivities (BranchCard.card f')
       = BranchCard.showActivities (BranchCard.card f)
         || existsb BranchCard.activities_arrived sts
    /\ BranchCard.members (BranchCard.card f')
       = BranchCard.last_arrived_members sts
           (BranchCard.members (BranchCard.card f))
    /\ BranchCard.branchActivities (BranchCard.card f')
       = BranchCard.last_arrived_activities sts
           (BranchCard.branchActivities (BranchCard.card f))
    /\ sent GET (BranchCard.members_url branch) (effects env')
       = sent GET (BranchCard.members_url branch) (effects env)
         + length (List.filter BranchCard.is_members_click sts)
    /\ sent GET (BranchCard.activities_url branch) (effects env')
       = sent GET (BranchCard.activities_url branch) (effects env)
         + length (List.filter BranchCard.is_activities_click sts).
Proof.
  induction sts as [|st later IH]; intros env env' f f' Hrun;
    cbn [BranchCard.steps] in Hrun.
  - injection Hrun as <- <-. cbn. rewrite !orb_false_r.
    repeat split; try reflexivity; lia.
  - destruct (BranchCard.step branch st env f) as [[env1 f1]|] eqn:Hstep;
      [|discriminate].
    destruct (step_effect branch st env env1 f f1 Hstep)
      as (Hls & Hm & Ha & Hms & Has & Hsm & Hsa).
    destruct (IH env1 env' f1 f' Hrun)
      as (Hls' & Hm' & Ha' & Hms' & Has' & Hsm' & Hsa').
    rewrite Hls', Hls, Hm', Hm, Ha', Ha, Hms', Hms, Has', Has, Hsm', Hsm,
      Hsa', Hsa.
    cbn [existsb List.filter]. rewrite !orb_assoc.
    repeat split.
    + destruct st as [|[]| |[]]; reflexivity.
    + destruct st as [|[]| |[]]; reflexivity.
    + destruct st; cbn; lia.
    + destruct st; cbn; lia.
Qed.

(** Two clicks on the members button before any reply; the reply to the
    second click arrives first, the reply to the first click last: the
    card ends up holding the list of the first click. *)
Lemma replies_out_of_order :
  let sts :=
    [BranchCard.ClickMembers; BranchCard.ClickMembers;
     BranchCard.MembersReply (Fulfilled [paul]);
     BranchCard.MembersReply (Fulfilled [jean])] in
  exists (env' : Env) (f' : BranchCard.InFlight),
    BranchCard.steps (H := local_runtime) meute_branch sts no_env idle_card
    = Some (env', f')
    /\ BranchCard.members (BranchCard.card f') = [jean]
    /\ BranchCard.showMembers (BranchCard.card f') = true
    /\ sent GET (BranchCard.members_url (H := local_runtime) meute_branch)
         (effects env')
       = 2.
Proof.
  intros sts.
  eexists. eexists. split; [reflexivity|].
  destruct (replies_show_last_arrived (H := local_runtime) meute_branch sts
              no_env _ idle_card _ eq_refl)
    as (_ & Hshown & _ & Hlist & _ & Hsent & _).
  split; [exact Hlist|]. split; [exact Hshown|exact Hsent].
Defined.

(** X5.  A visible list is never hidden again: whatever buttons are
    clicked afterwards and however the requests are settled, a members
    list that is on screen stays on screen, and its button keeps the
    label [Masquer les membres]. *)
Theorem clicks_never_hide `{Runtime} (branch : Branch.t)
    (cs : list BranchCard.Click) (env : Env) (s : BranchCard.State) :
  BranchCard.showMembers s = true ->
  let s' := state_after (BranchCard.clicks branch cs env s) in
  BranchCard.showMembers s' = true
  /\ BranchCard.members_button (BranchCard.render s') = "Masquer les membres"
  /\ BranchCard.members_panel (BranchCard.render s') <> None.
Proof.
  intros Hshown s'.
  destruct (clicks_effect branch cs env s)
    as (_ & _ & Hm & _).
  fold s' in Hm. rewrite Hshown in Hm. cbn in Hm.
  unfold BranchCard.render. cbn. rewrite Hm. repeat split. discriminate.
Qed.

Lemma clicks_never_hide_after_one_fetch :
  let meute := Branch.mk "meute" "Meute" "8-11 ans" "Louveteaux" in
  let shown :=
    state_after
      (BranchCard.loadMembers (H := local_runtime) meute
         (Fulfilled [jean; paul]) no_env BranchCard.init) in
  let s' :=
    state_after
      (BranchCard.clicks (H := local_runtime) meute
         [BranchCard.Members (Rejected NetworkError);
          BranchCard.Activities (Fulfilled seven_camps);
          BranchCard.Members (Fulfilled [jean])]
         no_env shown) in
  BranchCard.showMembers shown = true
  /\ BranchCard.showMembers s' = true
  /\ BranchCard.members_button (BranchCard.render s') = "Masquer les membres"
  /\ BranchCard.members_panel (BranchCard.render s') <> None.
Proof.
  intros meute shown s'.
  split; [reflexivity|].
  exact (clicks_never_hide (H := local_runtime) meute
           [BranchCard.Members (Rejected NetworkError);
            BranchCard.Activities (Fulfilled seven_camps);
            BranchCard.Members (Fulfilled [jean])]
           no_env shown eq_refl).
Defined.

(** ** Navigation between the three views *)

(** X6.  From the login view, a fulfilled login always opens the
    dashboard: the [POST /auth/login] carries the credentials as typed and
    no [Authorization] header, the issued token is persisted, the root's
    view is [admin] with its flag set, and the dashboard is on screen. *)
Theorem fulfilled_login_opens_dashboard `{Runtime}
    (p : Page.State) (issued : LoginData) :
  App.view (Page.app p) = App.login ->
  exists p' : Page.State,
    Page.dispatch (Page.SubmitLogin (Fulfilled issued)) p = Some p'
    /\ Page.persisted p' = Some (access_token issued)
    /\ App.view (Page.app p') = App.admin
    /\ App.isAuthenticated (Page.app p') = true
    /\ App.shows_dashboard (Page.app p') = true
    /\ effects (Page.env p')
       = (effects (Page.env p)
          ++ [Http POST (API ++ "/auth/login") None
                (CredentialsBody (AdminLogin.credentials (Page.loginView p)))])%list
    /\ AdminLogin.loading (Page.loginView p') = false.
Proof.
  destruct p as [env [view flag] auth lv]; cbn. intros ->.
  eexists. split; [reflexivity|]. cbn.
  unfold Page.persisted; cbn. rewrite lookup_insert_eq. auto 10.
Qed.

Lemma fulfilled_login_from_login_page :
  App.view (Page.app login_page) = App.login
  /\ exists p' : Page.State,
       Page.dispatch (H := local_runtime)
         (Page.SubmitLogin (Fulfilled {| access_token := "t" |})) login_page
       = Some p'
       /\ Page.persisted p' = Some "t"
       /\ App.shows_dashboard (Page.app p') = true.
Proof.
  split; [reflexivity|].
  destruct (fulfilled_login_opens_dashboard (H := local_runtime) login_page
              {| access_token := "t" |} eq_refl)
    as (p' & Hstep & Htoken & _ & _ & Hshown & _).
  exists p'. auto.
Defined.

(** X7.  In every reachable state the admin view comes with the
    dashboard: whenever the root's view is [admin] its flag is set, so
    the dashboard is on screen and the user never faces an empty admin
    view. *)
Theorem admin_view_shows_dashboard `{Runtime}
    (storage : gmap string string) (p : Page.State) :
  Page.reachable storage p ->
  App.view (Page.app p) = App.admin ->
  App.isAuthenticated (Page.app p) = true
  /\ App.shows_dashboard (Page.app p) = true.
Proof.
  intros Hreach Hadmin.
  pose proof (admin_view_is_authenticated storage p Hreach Hadmin) as Hflag.
  split; [exact Hflag|]. apply shows_dashboard_iff. auto.
Qed.

Lemma admin_page_shows_dashboard :
  Page.reachable (H := local_runtime) ∅ admin_page
  /\ App.view (Page.app admin_page) = App.admin
  /\ App.isAuthenticated (Page.app admin_page) = true
  /\ App.shows_dashboard (Page.app admin_page) = true.
Proof.
  split; [exact admin_page_reachable|]. split; [reflexivity|].
  exact (admin_view_shows_dashboard (H := local_runtime) ∅ admin_page
           admin_page_reachable eq_refl).
Defined.

(** X8.  In every reachable state exactly one of the three children of
    the root is on screen: the page is never blank and never shows two
    views at once. *)
Theorem page_shows_one_view `{Runtime}
    (storage : gmap string string) (p : Page.State) :
  Page.reachable storage p ->
  exists el : App.Element, App.render (Page.app p) = [el].
Proof.
  intros Hreach.
  pose proof (admin_view_is_authenticated storage p Hreach) as Hadmin.
  destruct p as [env [[] flag] auth lv]; cbn in *.
  - eexists; reflexivity.
  - eexists; reflexivity.
  - rewrite Hadmin by reflexivity. eexists; reflexivity.
Qed.

Lemma admin_page_shows_one_view :
  Page.reachable (H := local_runtime) ∅ admin_page
  /\ exists el : App.Element, App.render (Page.app admin_page) = [el].
Proof.
  split; [exact admin_page_reachable|].
  exact (page_shows_one_view (H := local_runtime) ∅ admin_page
           admin_page_reachable).
Defined.

(** X9.  The only event that opens the admin view is a fulfilled login:
    if an event leads from another view to [admin], it is the submission
    of the login form with a fulfilled reply.  In particular a session
    restored from [localStorage] starts on the public view and reaches the
    dashboard only through a new login. *)
Theorem admin_only_through_login `{Runtime}
    (e : Page.Event) (p p' : Page.State) :
  Page.dispatch e p = Some p' ->
  App.view (Page.app p) <> App.admin ->
  App.view (Page.app p') = App.admin ->
  exists issued : LoginData, e = Page.SubmitLogin (Fulfilled issued).
Proof.
  intros Hstep Hnot Hadmin.
  destruct e as [|c|[issued|why]|].
  - destruct p as [env [[] []] auth lv]; cbn in Hstep; try discriminate;
      injection Hstep as <-; cbn in Hadmin; try discriminate;
      contradiction.
  - destruct p as [env [[] []] auth lv]; cbn in Hstep; try discriminate;
      injection Hstep as <-; cbn in Hadmin; discriminate.
  - exists issued. reflexivity.
  - destruct p as [env [[] []] auth lv]; cbn in Hstep; try discriminate;
      injection Hstep as <-; cbn in Hadmin; discriminate.
  - apply logout_click_frame in Hstep as (Happ & _).
    rewrite Happ in Hadmin. contradiction.
Qed.

Lemma login_opens_admin_from_login_page :
  Page.dispatch (H := local_runtime)
    (Page.SubmitLogin (Fulfilled {| access_token := "t" |})) login_page
  = Some admin_page
  /\ App.view (Page.app login_page) <> App.admin
  /\ App.view (Page.app admin_page) = App.admin
  /\ exists issued : LoginData,
       Page.SubmitLogin (Fulfilled {| access_token := "t" |})
       = Page.SubmitLogin (Fulfilled issued).
Proof.
  assert (Hstep :
    Page.dispatch (H := local_runtime)
      (Page.SubmitLogin (Fulfilled {| access_token := "t" |})) login_page
    = Some admin_page) by reflexivity.
  assert (Hnot : App.view (Page.app login_page) <> App.admin)
    by discriminate.
  split; [exact Hstep|]. split; [exact Hnot|]. split; [reflexivity|].
  exact (admin_only_through_login (H := local_runtime) _ login_page
           admin_page Hstep Hnot eq_refl).
Defined.

(** X10.  The admin view is final: once the root's view is [admin], no
    event changes the root's state any more.  The view stays [admin] and
    the flag stays as it is, so the user cannot get back to the public
    site or to the login view without reloading the page. *)
Theorem admin_view_is_final `{Runtime}
    (e : Page.Event) (p p' : Page.State) :
  App.view (Page.app p) = App.admin ->
  Page.dispatch e p = Some p' ->
  Page.app p' = Page.app p.
Proof.
  intros Hadmin Hstep.
  destruct e.
  - destruct p as [env [[] []] auth lv]; cbn in *; discriminate.
  - destruct p as [env [[] []] auth lv]; cbn in *; discriminate.
  - destruct p as [env [[] []] auth lv]; cbn in *; discriminate.
  - apply logout_click_frame in Hstep as (Happ & _). exact Happ.
Qed.

Lemma admin_page_is_final :
  App.view (Page.app admin_page) = App.admin
  /\ exists p' : Page.State,
       Page.dispatch (H := local_runtime) Page.ClickLogout admin_page
       = Some p'
       /\ Page.app p' = Page.app admin_page.
Proof.
  split; [reflexivity|].
  eexists. split; [reflexivity|].
  exact (admin_view_is_final (H := local_runtime) Page.ClickLogout
           admin_page _ eq_refl eq_refl).
Defined.

(** ** The session at first render and its writers *)

Lemma truthy_spec (item : option string) :
  truthy item = true <-> exists t : string, item = Some t /\ t <> "".
Proof.
  destruct item as [t|]; cbn.
  - rewrite negb_true_iff, String.eqb_neq. split.
    + intros Hne. exists t. auto.
    + intros (t' & [= <-] & Hne). exact Hne.
  - split; [discriminate|]. intros (t & Hnone & _). discriminate.
Qed.

(** X11.  At first render, on any [localStorage], the root's flag and the
    provider's flag agree; they are set exactly when a non-empty
    [adminToken] is stored (an empty one counts as none), and even then
    the page opens on the public view, without the dashboard. *)
Theorem first_render_session (storage : gmap string string) :
  App.isAuthenticated (App.init storage)
  = AuthProvider.isAuthenticated (AuthProvider.init storage)
  /\ (App.isAuthenticated (App.init storage) = true
      <-> exists t : string, storage !! "adminToken" = Some t /\ t <> "")
  /\ AuthProvider.token (AuthProvider.init storage) = storage !! "adminToken"
  /\ App.view (App.init storage) = App.public
  /\ App.shows_dashboard (App.init storage) = false.
Proof.
  split; [reflexivity|]. split; [apply truthy_spec|].
  repeat split.
Qed.

(** X12.  The four session writers touch one key of [localStorage] only:
    every other key keeps its value, and nothing is sent or logged. *)
Theorem session_writers_touch_only_adminToken
    (key t : string) (env : Env)
    (s : AuthProvider.State) (a : App.State) :
  key <> "adminToken" ->
  (let r := AuthProvider.login t env s in
   localStorage (env_after r) !! key = localStorage env !! key
   /\ effects (env_after r) = effects env)
  /\ (let r := AuthProvider.logout env s in
      localStorage (env_after r) !! key = localStorage env !! key
      /\ effects (env_after r) = effects env)
  /\ (let r := App.handleLogin t env a in
      localStorage (env_after r) !! key = localStorage env !! key
      /\ effects (env_after r) = effects env)
  /\ (let r := App.handleLogout env a in
      localStorage (env_after r) !! key = localStorage env !! key
      /\ effects (env_after r) = effects env).
Proof.
  intros Hkey.
  rewrite AuthProvider_login_spec, AuthProvider_logout_spec,
    App_handleLogin_spec, App_handleLogout_spec.
  cbv [env_after]; cbn.
  rewrite lookup_insert_ne, lookup_delete_ne by congruence. auto 10.
Qed.

Lemma session_writers_keep_theme :
  "theme" <> "adminToken"
  /\ localStorage
       (env_after
          (AuthProvider.logout
             {| localStorage := some_storage; effects := [] |}
             (AuthProvider.init some_storage))) !! "theme"
     = some_storage !! "theme".
Proof.
  assert (Hkey : "theme" <> "adminToken") by discriminate.
  split; [exact Hkey|].
  destruct (session_writers_touch_only_adminToken "theme" "t"
              {| localStorage := some_storage; effects := [] |}
              (AuthProvider.init some_storage) (App.init some_storage) Hkey)
    as (_ & (Hlogout & _) & _).
  exact Hlogout.
Defined.

(** ** The dashboard's loaders *)

(** X13.  When the dashboard mounts, its four requests are all sent, in
    the order stats, members, activities, project, whatever becomes of
    each: every fulfilled reply is stored in its own state variable and a
    rejected one leaves that variable as it was, without holding back the
    other three.  Only the stats request carries an [Authorization]
    header.  The active tab is untouched. *)
Theorem mount_loads_independently `{Runtime}
    (statsReply : Response Stats)
    (membersReply : Response (list Member.t))
    (activitiesReply : Response (list Activity.t))
    (projectReply : Response Project.t)
    (env : Env) (s : AdminDashboard.State) :
  let r := AdminDashboard.mount statsReply membersReply activitiesReply
             projectReply env s in
  outcome r = Normal tt
  /\ state_after r
     = {| AdminDashboard.activeTab := AdminDashboard.activeTab s;
          AdminDashboard.stats :=
            match statsReply with
            | Fulfilled fetched => Some fetched
            | Rejected _ => AdminDashboard.stats s
            end;
          AdminDashboard.members :=
            match membersReply with
            | Fulfilled fetched => fetched
            | Rejected _ => AdminDashboard.members s
            end;
          AdminDashboard.activities :=
            match activitiesReply with
            | Fulfilled fetched => fetched
            | Rejected _ => AdminDashboard.activities s
            end;
          AdminDashboard.project :=
            match projectReply with
            | Fulfilled fetched => fetched
            | Rejected _ => AdminDashboard.project s
            end |}
  /\ requests (new_effects env r)
     = [Http GET (API ++ "/admin/stats")
          (Some ("Bearer " ++ template (localStorage env !! "adminToken")))
          NoBody;
        Http GET (API ++ "/members") None NoBody;
        Http GET (API ++ "/activities") None NoBody;
        Http GET (API ++ "/project") None NoBody]
  /\ localStorage (env_after r) = localStorage env.
Proof.
  destruct s as [tab stats members activities project].
  destruct statsReply, membersReply, activitiesReply, projectReply;
    (split; [reflexivity|]); (split; [reflexivity|]);
    (split; [|reflexivity]);
    added_effects; reflexivity.
Qed.

(** X14.  Admin calls are not guarded by the presence of a token: with no
    [adminToken] in [localStorage], the stats request, a member
    submission, a project submission and a confirmed activity deletion
    are still sent, each with the header [Bearer null]. *)
Theorem admin_calls_without_token `{Runtime}
    (statsReply : Response Stats) (reply : Response unit)
    (refreshedMembers : Response (list Member.t))
    (refreshedActivities : Response (list Activity.t))
    (refreshedProject : Response Project.t)
    (id : string) (env : Env) (d : AdminDashboard.State)
    (m : MembersManagement.State) (a : ActivitiesManagement.State)
    (pr : ProjectManagement.State) :
  localStorage env !! "adminToken" = None ->
  head (authorizations (new_effects env (AdminDashboard.loadStats statsReply env d)))
  = Some (Some "Bearer null")
  /\ head (authorizations
             (new_effects env
                (MembersManagement.handleSubmit
                   (AdminDashboard.loadMembers refreshedMembers) reply
                   env (m, d))))
     = Some (Some "Bearer null")
  /\ head (authorizations
             (new_effects env
                (ProjectManagement.handleSubmit
                   (AdminDashboard.loadProject refreshedProject) reply
                   env (pr, d))))
     = Some (Some "Bearer null")
  /\ head (authorizations
             (new_effects env
                (ActivitiesManagement.handleDelete
                   (AdminDashboard.loadActivities refreshedActivities)
                   id true reply env (a, d))))
     = Some (Some "Bearer null").
Proof.
  intros Hnone.
  repeat split.
  - destruct statsReply; added_effects; cbn; rewrite Hnone; reflexivity.
  - cbv [MembersManagement.handleSubmit].
    destruct (MembersManagement.editingMember m) eqn:Hedit, reply,
      refreshedMembers;
      (erewrite new_effects_app
         by (run_handler; rewrite Hedit; cbn;
             rewrite <- ?app_assoc; reflexivity));
      cbn; rewrite Hnone; reflexivity.
  - destruct reply, refreshedProject; added_effects; cbn; rewrite Hnone;
      reflexivity.
  - destruct reply, refreshedActivities; added_effects; cbn; rewrite Hnone;
      reflexivity.
Qed.

Lemma admin_calls_on_empty_storage :
  localStorage no_env !! "adminToken" = None
  /\ head (authorizations
             (new_effects no_env
                (AdminDashboard.loadStats (H := local_runtime)
                   (Rejected (BadStatus 401)) no_env AdminDashboard.init)))
     = Some (Some "Bearer null").
Proof.
  split; [reflexivity|].
  destruct (admin_calls_without_token (H := local_runtime)
              (Rejected (BadStatus 401)) (Rejected (BadStatus 401))
              (Rejected NetworkError) (Rejected NetworkError)
              (Rejected NetworkError) "a1" no_env AdminDashboard.init
              MembersManagement.init ActivitiesManagement.init
              ProjectManagement.init eq_refl)
    as (Hstats & _).
  exact Hstats.
Defined.

(** ** The members form *)

(** The state after a fulfilled member submission. *)
Lemma members_handleSubmit_fulfilled `{Runtime} {P : Type}
    (onUpdate : Act P unit) (env : Env)
    (s : MembersManagement.State) (parent : P) :
  let data :=
    MemberBody
      {| md_nom := MembersManagement.nom (MembersManagement.formData s);
         md_prenom := MembersManagement.prenom (MembersManagement.formData s);
         md_age := parseInt (MembersManagement.age (MembersManagement.formData s));
         md_branch := MembersManagement.branch (MembersManagement.formData s) |} in
  let authorization :=
    Some ("Bearer " ++ template (localStorage env !! "adminToken")) in
  let request :=
    match MembersManagement.editingMember s with
    | Some member =>
        Http PUT (API ++ "/admin/members/" ++ Member.id member)
             authorization data
    | None => Http POST (API ++ "/admin/members") authorization data
    end in
  let sent_env :=
    {| localStorage := localStorage env;
       effects := effects env ++ [request] |} in
  state_after
    (MembersManagement.handleSubmit onUpdate (Fulfilled tt) env (s, parent))
  = (MembersManagement.init, state_after (onUpdate sent_env parent)).
Proof.
  cbv [MembersManagement.handleSubmit]. run_handler.
  destruct (MembersManagement.editingMember s); cbn;
    match goal with
    | |- context [onUpdate ?e parent] =>
        destruct (onUpdate e parent) as [[[] env'] parent']
    end; reflexivity.
Qed.

(** X15.  A fulfilled member submission sends one request, an update
    [PUT /admin/members/{id}] when a member is under edit and a creation
    [POST /admin/members] otherwise, with the age parsed from the form;
    it then returns the form to its initial state (blank, hidden, nothing
    under edit) and runs the refresh callback after the request. *)
Theorem fulfilled_member_submit_resets_form `{Runtime} {P : Type}
    (onUpdate : Act P unit) (env : Env)
    (s : MembersManagement.State) (parent : P) :
  let data :=
    MemberBody
      {| md_nom := MembersManagement.nom (MembersManagement.formData s);
         md_prenom := MembersManagement.prenom (MembersManagement.formData s);
         md_age := parseInt (MembersManagement.age (MembersManagement.formData s));
         md_branch := MembersManagement.branch (MembersManagement.formData s) |} in
  let authorization :=
    Some ("Bearer " ++ template (localStorage env !! "adminToken")) in
  let request :=
    match MembersManagement.editingMember s with
    | Some member =>
        Http PUT (API ++ "/admin/members/" ++ Member.id member)
             authorization data
    | None => Http POST (API ++ "/admin/members") authorization data
    end in
  let sent_env :=
    {| localStorage := localStorage env;
       effects := effects env ++ [request] |} in
  state_after
    (MembersManagement.handleSubmit onUpdate (Fulfilled tt) env (s, parent))
  = (MembersManagement.init, state_after (onUpdate sent_env parent)).
Proof. apply members_handleSubmit_fulfilled. Qed.

Lemma handleEdit_spec `{Runtime} (member : Member.t) (n : Z) (env : Env)
    (s : MembersManagement.State) :
  Member.age member = Some n ->
  MembersManagement.handleEdit member env s =
  (Normal tt, env,
   {| MembersManagement.showForm := true;
      MembersManagement.editingMember := Some member;
      MembersManagement.formData :=
        {| MembersManagement.nom := Member.nom member;
           MembersManagement.prenom := Member.prenom member;
           MembersManagement.age := Number_toString n;
           MembersManagement.branch := Member.branch member |} |}).
Proof.
  intros Hage. cbv [MembersManagement.handleEdit toString]. run_handler.
  rewrite Hage. reflexivity.
Qed.

(** An edit click on a record without an age: [member.age.toString()]
    throws once the record was put under edit, before the form is filled
    or opened. *)
Lemma handleEdit_without_age `{Runtime} (member : Member.t) (env : Env)
    (s : MembersManagement.State) :
  Member.age member = None ->
  MembersManagement.handleEdit member env s =
  (Thrown TypeError, env,
   {| MembersManagement.showForm := MembersManagement.showForm s;
      MembersManagement.editingMember := Some member;
      MembersManagement.formData := MembersManagement.formData s |}).
Proof.
  intros Hage. cbv [MembersManagement.handleEdit toString]. run_handler.
  rewrite Hage. reflexivity.
Qed.

(** X16.  Editing a member and submitting the form untouched sends the
    member back as it is: for a member whose age is a safe integer, and
    with a [parseInt] that reads the decimal numeral of that age back,
    the request is [PUT /admin/members/{id}] with the member's own [nom],
    [prenom], [age] and [branch], whatever the form held before the edit
    click. *)
Theorem member_edit_then_submit_round_trip `{Runtime}
    (member : Member.t) (n : Z) (reply : Response unit)
    (refreshed : Response (list Member.t))
    (env : Env) (s : MembersManagement.State) (d : AdminDashboard.State) :
  Member.age member = Some n ->
  isSafeInteger n = true ->
  parseInt (decimal n) = Some n ->
  let edited := state_after (MembersManagement.handleEdit member env s) in
  MembersManagement.submit_label edited = "Modifier"
  /\ MembersManagement.age (MembersManagement.formData edited) = decimal n
  /\ head
       (new_effects env
          (MembersManagement.handleSubmit
             (AdminDashboard.loadMembers refreshed) reply env (edited, d)))
     = Some
         (Http PUT (API ++ "/admin/members/" ++ Member.id member)
            (Some ("Bearer " ++ template (localStorage env !! "adminToken")))
            (MemberBody
               {| md_nom := Member.nom member;
                  md_prenom := Member.prenom member;
                  md_age := Some n;
                  md_branch := Member.branch member |})).
Proof.
  intros Hage Hsafe Hparse edited.
  unfold edited. rewrite (handleEdit_spec member n env s Hage).
  cbv [state_after]; cbn [snd].
  unfold Number_toString. rewrite Hsafe.
  split; [reflexivity|]. split; [reflexivity|].
  destruct reply, refreshed;
    (erewrite new_effects_app
       by (cbv [MembersManagement.handleSubmit]; run_handler; cbn;
           rewrite <- ?app_assoc; reflexivity));
    cbn; rewrite Hparse; reflexivity.
Qed.

Lemma jean_edit_then_submit :
  Member.age jean = Some 10%Z
  /\ isSafeInteger 10 = true
  /\ parseInt (Runtime := local_runtime) (decimal 10) = Some 10%Z
  /\ head
       (new_effects no_env
          (MembersManagement.handleSubmit (H := local_runtime)
             (AdminDashboard.loadMembers (H := local_runtime)
                (Fulfilled [jean]))
             (Fulfilled tt) no_env
             (state_after
                (MembersManagement.handleEdit (H := local_runtime) jean
                   no_env MembersManagement.init),
              AdminDashboard.init)))
     = Some
         (Http PUT "http://localhost:8001/api/admin/members/m1"
            (Some "Bearer null")
            (MemberBody
               {| md_nom := "Dupont"; md_prenom := "Jean";
                  md_age := Some 10%Z; md_branch := "meute" |})).
Proof.
  split; [reflexivity|]. split; [reflexivity|]. split; [reflexivity|].
  destruct (member_edit_then_submit_round_trip (H := local_runtime) jean 10
              (Fulfilled tt) (Fulfilled [jean]) no_env
              MembersManagement.init AdminDashboard.init eq_refl eq_refl
              eq_refl)
    as (_ & _ & Hsent).
  exact Hsent.
Defined.

(** One event keeps a hidden form pristine. *)
Lemma members_dispatch_pristine `{Runtime} {P : Type}
    (onUpdate : Act P unit) (e : MembersManagement.Event)
    (env env' : Env) (s s' : MembersManagement.State) (p p' : P)
    (r : Completion unit) :
  edits_have_age e = true ->
  MembersManagement.pristine_when_hidden s ->
  MembersManagement.dispatch onUpdate e env (s, p) = Some (r, env', (s', p')) ->
  MembersManagement.pristine_when_hidden s'.
Proof.
  unfold MembersManagement.pristine_when_hidden. intros Hage Hinv Hstep.
  destruct e as [|member|field value| |reply|memberId answer reply];
    cbn [MembersManagement.dispatch fst] in Hstep.
  - injection Hstep as <- <- <- <-. discriminate.
  - cbn in Hage.
    destruct (Member.age member) as [n|] eqn:Hn; [|discriminate].
    unfold own in Hstep. rewrite (handleEdit_spec member n env s Hn) in Hstep.
    injection Hstep as <- <- <- <-. discriminate.
  - destruct (MembersManagement.showForm s) eqn:Hshown; [|discriminate].
    injection Hstep as <- <- <- <-. cbn. congruence.
  - destruct (MembersManagement.showForm s) eqn:Hshown; [|discriminate].
    injection Hstep as <- <- <- <-. cbn. auto.
  - destruct (MembersManagement.showForm s) eqn:Hshown; [|discriminate].
    destruct reply as [[]|why].
    + pose proof (members_handleSubmit_fulfilled onUpdate env s p)
        as Hreset.
      injection Hstep as Hstep. cbv zeta in Hreset.
      rewrite Hstep in Hreset. cbv [state_after] in Hreset; cbn in Hreset.
      injection Hreset as -> _. cbn. auto.
    + rewrite members_handleSubmit_rejected in Hstep.
      injection Hstep as <- <- <- <-. congruence.
  - destruct answer.
    + destruct reply as [[]|why].
      * pose proof (members_handleDelete_confirmed onUpdate memberId env s p)
          as Hkept.
        injection Hstep as Hstep. cbv zeta in Hkept.
        rewrite Hstep in Hkept. cbv [state_after] in Hkept; cbn in Hkept.
        injection Hkept as -> _. exact Hinv.
      * rewrite members_handleDelete_rejected in Hstep.
        injection Hstep as <- <- <- <-. exact Hinv.
    + rewrite members_handleDelete_unconfirmed in Hstep.
      injection Hstep as <- <- <- <-. exact Hinv.
Qed.

Lemma members_run_pristine `{Runtime} {P : Type}
    (onUpdate : Act P unit) (events : list MembersManagement.Event) :
  forall (env env' : Env) (s s' : MembersManagement.State) (p p' : P),
    forallb edits_have_age events = true ->
    MembersManagement.pristine_when_hidden s ->
    MembersManagement.run onUpdate events env (s, p) = Some (env', (s', p')) ->
    MembersManagement.pristine_when_hidden s'.
Proof.
  induction events as [|e later IH];
    intros env env' s s' p p' Hages Hinv Hrun;
    cbn [MembersManagement.run] in Hrun.
  - injection Hrun as <- <- <-. exact Hinv.
  - cbn [forallb] in Hages. apply andb_true_iff in Hages as [Hage Hlater].
    destruct (MembersManagement.dispatch onUpdate e env (s, p))
      as [[[r env1] [s1 p1]]|] eqn:Hstep; [|discriminate].
    eapply IH; [exact Hlater| |exact Hrun].
    eapply members_dispatch_pristine; [exact Hage|exact Hinv|exact Hstep].
Qed.

(** X17.  As long as every member on which [Modifier] is clicked carries
    an age, the members form is pristine whenever it is hidden: after any
    sequence of clicks, typing, submissions and deletions, however the
    requests are settled, a hidden form has nothing under edit and blank
    fields, so that [Ajouter un membre] opens an empty creation form.
    (An edit click on a record whose age is [null] throws after the record
    was put under edit: see [handleEdit_without_age].) *)
Theorem hidden_members_form_is_pristine `{Runtime} {P : Type}
    (onUpdate : Act P unit) (events : list MembersManagement.Event)
    (env env' : Env) (s' : MembersManagement.State) (p p' : P) :
  forallb edits_have_age events = true ->
  MembersManagement.run onUpdate events env (MembersManagement.init, p)
  = Some (env', (s', p')) ->
  MembersManagement.showForm s' = false ->
  MembersManagement.editingMember s' = None
  /\ MembersManagement.formData s' = MembersManagement.blank
  /\ MembersManagement.submit_label s' = "Ajouter".
Proof.
  intros Hages Hrun Hhidden.
  assert (Hinit : MembersManagement.pristine_when_hidden MembersManagement.init)
    by (intros _; split; reflexivity).
  destruct (members_run_pristine onUpdate events env env'
              MembersManagement.init s' p p' Hages Hinit Hrun Hhidden)
    as [Hedit Hform].
  unfold MembersManagement.submit_label. rewrite Hedit. auto.
Qed.

(** Events that keep the record under edit. *)
Lemma members_dispatch_keeps_target `{Runtime} {P : Type}
    (onUpdate : Act P unit) (e : MembersManagement.Event)
    (env env' : Env) (s s' : MembersManagement.State) (p p' : P)
    (r : Completion unit) :
  keeps_target e = true ->
  MembersManagement.dispatch onUpdate e env (s, p) = Some (r, env', (s', p')) ->
  MembersManagement.editingMember s' = MembersManagement.editingMember s.
Proof.
  intros Hkeeps Hstep.
  destruct e as [|member|field value| |reply|memberId answer reply];
    try discriminate Hkeeps;
    cbn [MembersManagement.dispatch fst] in Hstep.
  - injection Hstep as <- <- <- <-. reflexivity.
  - destruct (MembersManagement.showForm s); [|discriminate].
    injection Hstep as <- <- <- <-. reflexivity.
  - destruct answer.
    + destruct reply as [[]|why].
      * pose proof (members_handleDelete_confirmed onUpdate memberId env s p)
          as Hkept.
        injection Hstep as Hstep. cbv zeta in Hkept.
        rewrite Hstep in Hkept. cbv [state_after] in Hkept; cbn in Hkept.
        injection Hkept as -> _. reflexivity.
      * rewrite members_handleDelete_rejected in Hstep.
        injection Hstep as <- <- <- <-. reflexivity.
    + rewrite members_handleDelete_unconfirmed in Hstep.
      injection Hstep as <- <- <- <-. reflexivity.
Qed.

(** X18.  [Ajouter un membre] does not leave edit mode: once a member is
    under edit, clicks on [Ajouter un membre], typing in the form and
    deletions keep it under edit, so the form still reads [Modifier] and
    its submission updates that member instead of creating one.  Only
    [Annuler], another edit click or a fulfilled submission change the
    record under edit. *)
Theorem add_click_keeps_edit_mode `{Runtime} {P : Type}
    (onUpdate : Act P unit) (events : list MembersManagement.Event) :
  forall (member : Member.t) (env env' : Env)
         (s s' : MembersManagement.State) (p p' : P),
    MembersManagement.editingMember s = Some member ->
    forallb keeps_target events = true ->
    MembersManagement.run onUpdate events env (s, p) = Some (env', (s', p')) ->
    MembersManagement.editingMember s' = Some member
    /\ MembersManagement.submit_label s' = "Modifier".
Proof.
  induction events as [|e later IH];
    intros member env env' s s' p p' Hedit Hkeeps Hrun;
    cbn [MembersManagement.run] in Hrun.
  - injection Hrun as <- <- <-.
    unfold MembersManagement.submit_label. rewrite Hedit. auto.
  - cbn [forallb] in Hkeeps. apply andb_true_iff in Hkeeps as [He Hlater].
    destruct (MembersManagement.dispatch onUpdate e env (s, p))
      as [[[r env1] [s1 p1]]|] eqn:Hstep; [|discriminate].
    eapply IH; [|exact Hlater|exact Hrun].
    rewrite (members_dispatch_keeps_target onUpdate e env env1 s s1 p p1 r
               He Hstep).
    exact Hedit.
Qed.

Lemma cancelled_form_is_pristine :
  let events :=
    [MembersManagement.Edit jean;
     MembersManagement.Change MembersManagement.field_age "11";
     MembersManagement.Cancel] in
  forallb edits_have_age events = true
  /\ MembersManagement.run (H := local_runtime) (P := unit) (act_ret tt)
       events no_env (MembersManagement.init, tt)
     = Some (no_env, (MembersManagement.init, tt))
  /\ MembersManagement.showForm MembersManagement.init = false
  /\ MembersManagement.editingMember MembersManagement.init = None
  /\ MembersManagement.formData MembersManagement.init
     = MembersManagement.blank
  /\ MembersManagement.submit_label MembersManagement.init = "Ajouter".
Proof.
  intros events.
  assert (Hrun :
    MembersManagement.run (H := local_runtime) (P := unit) (act_ret tt)
      events no_env (MembersManagement.init, tt)
    = Some (no_env, (MembersManagement.init, tt))) by reflexivity.
  split; [reflexivity|]. split; [exact Hrun|]. split; [reflexivity|].
  exact (hidden_members_form_is_pristine (H := local_runtime) (act_ret tt)
           events no_env no_env MembersManagement.init tt tt eq_refl Hrun
           eq_refl).
Defined.

Lemma add_after_edit_still_edits_jean :
  let editing :=
    state_after (MembersManagement.handleEdit (H := local_runtime) jean
                   no_env MembersManagement.init) in
  let events :=
    [MembersManagement.Add;
     MembersManagement.Change MembersManagement.field_age "11"] in
  MembersManagement.editingMember editing = Some jean
  /\ forallb keeps_target events = true
  /\ exists s' : MembersManagement.State,
       MembersManagement.run (H := local_runtime) (P := unit) (act_ret tt)
         events no_env (editing, tt)
       = Some (no_env, (s', tt))
       /\ MembersManagement.editingMember s' = Some jean
       /\ MembersManagement.submit_label s' = "Modifier".
Proof.
  intros editing events.
  split; [reflexivity|]. split; [reflexivity|].
  eexists. split; [reflexivity|].
  exact (add_click_keeps_edit_mode (H := local_runtime) (act_ret tt) events
           jean no_env no_env editing _ tt tt eq_refl eq_refl eq_refl).
Defined.

(** ** The activities form *)

(** X19.  An activity whose date does not parse is never sent: when
    [new Date(value).toISOString()] throws on the form's date, the
    submission sends no request at all, whatever the record under edit;
    the error is written to the console, the form, its owner and
    [localStorage] stay as they are, and the refresh callback is not
    run. *)
Theorem invalid_date_sends_nothing `{Runtime} {P : Type}
    (onUpdate : Act P unit) (reply : Response unit) (env : Env)
    (s : ActivitiesManagement.State) (parent : P) :
  Date_toISOString
    (ActivitiesManagement.date_activite (ActivitiesManagement.formData s))
  = None ->
  ActivitiesManagement.handleSubmit onUpdate reply env (s, parent)
  = (Normal tt,
     {| localStorage := localStorage env;
        effects := effects env ++ [ConsoleError "Erreur:" RangeError] |},
     (s, parent)).
Proof.
  intros Hdate.
  cbv [ActivitiesManagement.handleSubmit ActivitiesManagement.toISOString].
  run_handler. rewrite Hdate. reflexivity.
Qed.

Lemma blank_date_sends_nothing :
  Date_toISOString (Runtime := local_runtime)
    (ActivitiesManagement.date_activite
       (ActivitiesManagement.formData ActivitiesManagement.init))
  = None
  /\ requests
       (effects
          (env_after
             (ActivitiesManagement.handleSubmit (H := local_runtime)
                (P := unit) (act_ret tt) (Fulfilled tt) no_env
                (ActivitiesManagement.init, tt))))
     = [].
Proof.
  split; [reflexivity|].
  rewrite (invalid_date_sends_nothing (H := local_runtime) (act_ret tt)
             (Fulfilled tt) no_env ActivitiesManagement.init tt eq_refl).
  reflexivity.
Defined.

Lemma activities_handleSubmit_fulfilled_own `{Runtime} {P : Type}
    (onUpdate : Act P unit) (env : Env)
    (s : ActivitiesManagement.State) (parent : P) :
  let s' :=
    (state_after
       (ActivitiesManagement.handleSubmit onUpdate (Fulfilled tt)
          env (s, parent))).1 in
  s' = s \/ s' = ActivitiesManagement.init.
Proof.
  cbv [ActivitiesManagement.handleSubmit ActivitiesManagement.toISOString].
  run_handler.
  destruct (Date_toISOString _); run_handler; [|left; reflexivity].
  destruct (ActivitiesManagement.editingActivity s); cbn;
    match goal with
    | |- context [onUpdate ?e parent] =>
        destruct (onUpdate e parent) as [[[] env'] parent']
    end; right; reflexivity.
Qed.

Lemma activities_dispatch_no_organ `{Runtime} {P : Type}
    (onUpdate : Act P unit) (e : ActivitiesManagement.Event)
    (env env' : Env) (s s' : ActivitiesManagement.State) (p p' : P)
    (r : Completion unit) :
  no_organ_unless_editing s ->
  ActivitiesManagement.dispatch onUpdate e env (s, p)
  = Some (r, env', (s', p')) ->
  no_organ_unless_editing s'.
Proof.
  unfold no_organ_unless_editing. intros Hinv Hstep.
  destruct e as [|activity|field value| |reply|activityId answer reply];
    cbn [ActivitiesManagement.dispatch fst] in Hstep.
  - injection Hstep as <- <- <- <-. exact Hinv.
  - injection Hstep as Hstep.
    cbv [ActivitiesManagement.handleEdit ActivitiesManagement.toISOString]
      in Hstep.
    revert Hstep. run_handler.
    destruct (Date_toISOString _); cbn; intros [= <- <- <- <-];
      cbn; discriminate.
  - destruct (ActivitiesManagement.showForm s); [|discriminate].
    injection Hstep as <- <- <- <-. destruct field; cbn; exact Hinv.
  - destruct (ActivitiesManagement.showForm s); [|discriminate].
    injection Hstep as <- <- <- <-. reflexivity.
  - destruct (ActivitiesManagement.showForm s); [|discriminate].
    injection Hstep as Hstep.
    destruct reply as [[]|why].
    + pose proof (activities_handleSubmit_fulfilled_own onUpdate env s p)
        as Hown.
      cbv zeta in Hown. rewrite Hstep in Hown.
      cbv [state_after] in Hown; cbn in Hown.
      destruct Hown as [->| ->]; [exact Hinv|reflexivity].
    + rewrite activities_handleSubmit_rejected in Hstep.
      injection Hstep as <- <- <- <-. exact Hinv.
  - injection Hstep as Hstep. destruct answer.
    + destruct reply as [[]|why].
      * pose proof (activities_handleDelete_confirmed onUpdate activityId
                      env s p) as Hkept.
        cbv zeta in Hkept. rewrite Hstep in Hkept.
        cbv [state_after] in Hkept; cbn in Hkept.
        injection Hkept as -> _. exact Hinv.
      * rewrite activities_handleDelete_rejected in Hstep.
        injection Hstep as <- <- <- <-. exact Hinv.
    + rewrite activities_handleDelete_unconfirmed in Hstep.
      injection Hstep as <- <- <- <-. exact Hinv.
Qed.

Lemma activities_run_no_organ `{Runtime} {P : Type}
    (onUpdate : Act P unit) (events : list ActivitiesManagement.Event) :
  forall (env env' : Env) (s s' : ActivitiesManagement.State) (p p' : P),
    no_organ_unless_editing s ->
    ActivitiesManagement.run onUpdate events env (s, p)
    = Some (env', (s', p')) ->
    no_organ_unless_editing s'.
Proof.
  induction events as [|e later IH]; intros env env' s s' p p' Hinv Hrun;
    cbn [ActivitiesManagement.run] in Hrun.
  - injection Hrun as <- <- <-. exact Hinv.
  - destruct (ActivitiesManagement.dispatch onUpdate e env (s, p))
      as [[[r env1] [s1 p1]]|] eqn:Hstep; [|discriminate].
    eapply IH; [|exact Hrun].
    eapply activities_dispatch_no_organ; [exact Hinv|exact Hstep].
Qed.

(** X20.  The activities form has no input for [organ]: after any
    sequence of clicks, typing, submissions and deletions, whenever no
    activity is under edit the form's [organ] is blank, so every activity
    created through the form is sent with [organ: null]. *)
Theorem created_activity_has_no_organ `{Runtime} {P : Type}
    (onUpdate : Act P unit) (events : list ActivitiesManagement.Event)
    (env env' : Env) (s' : ActivitiesManagement.State) (p p' : P) :
  ActivitiesManagement.run onUpdate events env (ActivitiesManagement.init, p)
  = Some (env', (s', p')) ->
  ActivitiesManagement.editingActivity s' = None ->
  ActivitiesManagement.organ (ActivitiesManagement.formData s') = ""
  /\ or_null (ActivitiesManagement.organ (ActivitiesManagement.formData s'))
     = None.
Proof.
  intros Hrun Hcreate.
  assert (Hinit : no_organ_unless_editing ActivitiesManagement.init)
    by (intros _; reflexivity).
  pose proof (activities_run_no_organ onUpdate events env env'
                ActivitiesManagement.init s' p p' Hinit Hrun Hcreate)
    as Horgan.
  rewrite Horgan. auto.
Qed.

Lemma typed_activity_has_no_organ :
  let events :=
    [ActivitiesManagement.Add;
     ActivitiesManagement.Change ActivitiesManagement.field_titre "Camp";
     ActivitiesManagement.Change ActivitiesManagement.field_branch "meute"] in
  exists s' : ActivitiesManagement.State,
    ActivitiesManagement.run (H := local_runtime) (P := unit) (act_ret tt)
      events no_env (ActivitiesManagement.init, tt)
    = Some (no_env, (s', tt))
    /\ ActivitiesManagement.editingActivity s' = None
    /\ ActivitiesManagement.branch (ActivitiesManagement.formData s') = "meute"
    /\ ActivitiesManagement.organ (ActivitiesManagement.formData s') = ""
    /\ or_null (ActivitiesManagement.organ (ActivitiesManagement.formData s'))
       = None.
Proof.
  intros events. eexists.
  split; [reflexivity|]. split; [reflexivity|]. split; [reflexivity|].
  exact (created_activity_has_no_organ (H := local_runtime) (act_ret tt)
           events no_env no_env _ tt tt eq_refl eq_refl).
Defined.

Lemma or_null_default (value : option string) :
  or_null (default "" value) = if truthy value then value else None.
Proof.
  destruct value as [v|]; [|reflexivity].
  unfold or_null, truthy; cbn. destruct (String.eqb_spec v "") as [->|Hne];
    reflexivity.
Qed.

(** X21.  Editing an activity whose date parses fills the form from the
    record, with each absent optional field shown as an empty string and
    the date cut at the [T] of its ISO timestamp, puts the record under
    edit and opens the form.  What a submission then sends for [branch]
    and [organ] is the record's own value, except that an empty string is
    sent as [null]; an absent [lieu] is sent as the empty string. *)
Theorem activity_edit_prefills_form `{Runtime}
    (activity : Activity.t) (timestamp : string) (env : Env)
    (s : ActivitiesManagement.State) :
  Date_toISOString (Activity.date_activite activity) = Some timestamp ->
  let r := ActivitiesManagement.handleEdit activity env s in
  let s' := state_after r in
  let form := ActivitiesManagement.formData s' in
  outcome r = Normal tt
  /\ env_after r = env
  /\ ActivitiesManagement.showForm s' = true
  /\ ActivitiesManagement.editingActivity s' = Some activity
  /\ ActivitiesManagement.titre form = Activity.titre activity
  /\ ActivitiesManagement.description form = Activity.description activity
  /\ Some (ActivitiesManagement.date_activite form)
     = head (split letter_T timestamp)
  /\ occurs letter_T (ActivitiesManagement.date_activite form) = false
  /\ or_null (ActivitiesManagement.branch form)
     = (if truthy (Activity.branch activity) then Activity.branch activity
        else None)
  /\ or_null (ActivitiesManagement.organ form)
     = (if truthy (Activity.organ activity) then Activity.organ activity
        else None)
  /\ ActivitiesManagement.lieu form = default "" (Activity.lieu activity).
Proof.
  intros Hdate r s' form.
  assert (Hrun : r =
    (Normal tt, env,
     {| ActivitiesManagement.showForm := true;
        ActivitiesManagement.editingActivity := Some activity;
        ActivitiesManagement.formData :=
          {| ActivitiesManagement.titre := Activity.titre activity;
             ActivitiesManagement.description := Activity.description activity;
             ActivitiesManagement.date_activite :=
               default "" (head (split letter_T timestamp));
             ActivitiesManagement.branch :=
               default "" (Activity.branch activity);
             ActivitiesManagement.organ :=
               default "" (Activity.organ activity);
             ActivitiesManagement.lieu :=
               default "" (Activity.lieu activity) |} |})).
  { unfold r.
    cbv [ActivitiesManagement.handleEdit ActivitiesManagement.toISOString].
    run_handler. rewrite Hdate. reflexivity. }
  unfold form, s'. rewrite Hrun. cbv [outcome env_after state_after]; cbn.
  rewrite !or_null_default.
  pose proof (split_nonempty letter_T timestamp) as Hnonempty.
  pose proof (split_free letter_T timestamp) as Hfree.
  destruct (split letter_T timestamp) as [|first others]; [contradiction|].
  inversion Hfree; subst. cbn. auto 12.
Qed.

Lemma camp_edit_prefills_form :
  let s' :=
    state_after
      (ActivitiesManagement.handleEdit (H := local_runtime) (camp "1")
         no_env ActivitiesManagement.init) in
  Date_toISOString (Runtime := local_runtime)
    (Activity.date_activite (camp "1"))
  = Some "2024-07-01T00:00:00.000Z"
  /\ ActivitiesManagement.editingActivity s' = Some (camp "1")
  /\ Some (ActivitiesManagement.date_activite
             (ActivitiesManagement.formData s'))
     = Some "2024-07-01"
  /\ or_null (ActivitiesManagement.organ (ActivitiesManagement.formData s'))
     = None.
Proof.
  intros s'. split; [reflexivity|].
  destruct (activity_edit_prefills_form (H := local_runtime) (camp "1")
              "2024-07-01T00:00:00.000Z" no_env ActivitiesManagement.init
              eq_refl)
    as (_ & _ & _ & Hedit & _ & _ & Hdate & _ & _ & Horgan & _).
  split; [exact Hedit|]. split; [exact Hdate|exact Horgan].
Defined.

(** ** The project form *)

(** X22.  Every submission of the project form ends with exactly one
    alert and a form that can be submitted again: the success message
    when the [PUT] was fulfilled, even if the refresh that follows is
    rejected, and the error message when it was rejected.  The text in the
    form is never cleared or changed by the submission, and the refresh is
    requested only after a fulfilled [PUT]. *)
Theorem project_submit_feedback `{Runtime}
    (reply : Response unit) (refreshed : Response Project.t)
    (env : Env) (s : ProjectManagement.State) (d : AdminDashboard.State) :
  let r := ProjectManagement.handleSubmit
             (AdminDashboard.loadProject refreshed) reply env (s, d) in
  outcome r = Normal tt
  /\ alerts (new_effects env r)
     = [Alert match reply with
              | Fulfilled _ => "Projet pédagogique mis à jour avec succès !"
              | Rejected _ => "Erreur lors de la mise à jour"
              end]
  /\ ProjectManagement.loading (state_after r).1 = false
  /\ ProjectManagement.formData (state_after r).1
     = ProjectManagement.formData s
  /\ sent GET (API ++ "/project") (new_effects env r)
     = match reply with
       | Fulfilled _ => 1
       | Rejected _ => 0
       end.
Proof.
  assert (Hself : String.eqb (API ++ "/project") (API ++ "/project") = true)
    by apply String.eqb_refl.
  destruct reply as [[]|why], refreshed;
    (split; [reflexivity|]);
    added_effects; cbv [alerts sent]; cbn; rewrite ?Hself; auto.
Qed.

(** X23.  The project form follows the backend, not the keyboard: after
    a fulfilled submission whose refresh is fulfilled, the dashboard holds
    the project the backend returned and the form, synchronised on it,
    shows that project's [titre] and [contenu], whatever was typed; when
    the refresh is rejected the dashboard keeps the project it had. *)
Theorem project_form_follows_backend `{Runtime}
    (fetched : Project.t) (why : Failure)
    (env : Env) (s : ProjectManagement.State) (d : AdminDashboard.State) :
  (let r := ProjectManagement.handleSubmit
              (AdminDashboard.loadProject (Fulfilled fetched)) (Fulfilled tt)
              env (s, d) in
   let d' := (state_after r).2 in
   let synced :=
     state_after
       (ProjectManagement.syncForm (AdminDashboard.project d')
          (env_after r) (state_after r).1) in
   AdminDashboard.project d' = fetched
   /\ ProjectManagement.formData synced
      = {| pf_titre := Project.titre fetched;
           pf_contenu := Project.contenu fetched |}
   /\ ProjectManagement.loading synced = false)
  /\ (let r := ProjectManagement.handleSubmit
                 (AdminDashboard.loadProject (Rejected why)) (Fulfilled tt)
                 env (s, d) in
      AdminDashboard.project (state_after r).2 = AdminDashboard.project d
      /\ ProjectManagement.formData (state_after r).1
         = ProjectManagement.formData s).
Proof. repeat split. Qed.
